(** * ingressgroup: the IngressGroup controller skeleton

    A shallow embedding of [main.go], of the API package
    [pkg/apis/ingressgroup/v1] ([types.go], [register.go]) and of the
    boundary the program talks to (the flag package, klog, the cluster API,
    the informer factory), followed by the properties of the controller's
    start-up, schema registration, wire shape and event handlers. *)

From Stdlib Require Import String Ascii List ZArith Bool Lia DecimalString.
From ExtLib Require Import Structures.Monad.
Import ListNotations.
Import MonadNotation.

Set Warnings "-register-all".

Local Open Scope string_scope.
Local Open Scope list_scope.

(** ** k8s.io/apimachinery/pkg/api/errors *)

Module Errors.

(** [metav1.StatusReason], the machine-readable cause of an API error. *)
Inductive StatusReason : Type :=
| StatusReasonUnknown
| StatusReasonUnauthorized
| StatusReasonForbidden
| StatusReasonNotFound
| StatusReasonAlreadyExists
| StatusReasonConflict
| StatusReasonInvalid
| StatusReasonTimeout
| StatusReasonInternalError
| StatusReasonServiceUnavailable.

(** A Go [error] value: its reason and the text [Error()] returns. *)
Record error : Type := mkError {
  Reason : StatusReason;
  Message : string
}.

Definition ReasonForError (err : error) : StatusReason := Reason err.

Definition reason_eqb (a b : StatusReason) : bool :=
  match a, b with
  | StatusReasonUnknown, StatusReasonUnknown
  | StatusReasonUnauthorized, StatusReasonUnauthorized
  | StatusReasonForbidden, StatusReasonForbidden
  | StatusReasonNotFound, StatusReasonNotFound
  | StatusReasonAlreadyExists, StatusReasonAlreadyExists
  | StatusReasonConflict, StatusReasonConflict
  | StatusReasonInvalid, StatusReasonInvalid
  | StatusReasonTimeout, StatusReasonTimeout
  | StatusReasonInternalError, StatusReasonInternalError
  | StatusReasonServiceUnavailable, StatusReasonServiceUnavailable => true
  | _, _ => false
  end.

Definition IsAlreadyExists (err : error) : bool :=
  reason_eqb (ReasonForError err) StatusReasonAlreadyExists.

(** [fmt.Errorf]: a plain error, with no API status attached. *)
Definition Errorf (msg : string) : error := mkError StatusReasonUnknown msg.

Definition dquote : string := String (ascii_of_nat 34) EmptyString.

Definition NewAlreadyExists (resource name : string) : error :=
  mkError StatusReasonAlreadyExists
          (resource ++ " " ++ dquote ++ name ++ dquote ++ " already exists").

End Errors.

(** ** JSON documents *)

Module Json.

(** An object keeps its members in the order the encoder wrote them. *)
Inductive json : Type :=
| JNull
| JBool (b : bool)
| JNum (z : Z)
| JStr (s : string)
| JArr (items : list json)
| JObj (members : list (string * json)).

Fixpoint lookup (k : string) (members : list (string * json)) : option json :=
  match members with
  | [] => None
  | (k', v) :: rest => if String.eqb k k' then Some v else lookup k rest
  end.

Definition keys (members : list (string * json)) : list string :=
  map fst members.

(** The JSON type name of a value, as OpenAPI spells it. *)
Definition typeOf (v : json) : string :=
  match v with
  | JNull => "null"
  | JBool _ => "boolean"
  | JNum _ => "integer"
  | JStr _ => "string"
  | JArr _ => "array"
  | JObj _ => "object"
  end.

Definition field (k : string) (v : json) : option json :=
  match v with
  | JObj members => lookup k members
  | _ => None
  end.

End Json.

(** ** k8s.io/apimachinery/pkg/apis/meta/v1

    The package is not part of the repository. [ObjectMeta] carries the
    fields the program reads ([Name], [Namespace]) and the resource version;
    how [TypeMeta] and [ObjectMeta] are written as JSON is left to the
    encoders the wire-shape section takes as variables. *)

Module Metav1.

Record TypeMeta : Type := mkTypeMeta {
  Kind : string;
  APIVersion : string
}.

Record ObjectMeta : Type := mkObjectMeta {
  Name : string;
  Namespace : string;
  ResourceVersion : string
}.

End Metav1.

(** ** pkg/apis/ingressgroup/v1: types.go and register.go *)

Module V1.

Import Json.

(** types.go, [ServiceItem]: [json:"name"], [json:"namespace"]. *)
Record ServiceItem : Type := mkServiceItem {
  Name : string;
  Namespace : string
}.

(** types.go, [IngressGroupSpec]: [json:"services,omitempty"]. *)
Record IngressGroupSpec : Type := mkIngressGroupSpec {
  Services : list ServiceItem
}.

(** types.go, [IngressGroup]: [TypeMeta] is embedded with [json:",inline"],
    [ObjectMeta] with [json:"metadata,omitempty"], [Spec] is tagged
    [json:"spec,omitempty"]. *)
Record IngressGroup : Type := mkIngressGroup {
  TypeMeta : Metav1.TypeMeta;
  ObjectMeta : Metav1.ObjectMeta;
  Spec : IngressGroupSpec
}.

(** types.go, [IngressGroupList]. *)
Record IngressGroupList : Type := mkIngressGroupList {
  ListTypeMeta : Metav1.TypeMeta;
  ListResourceVersion : string;
  Items : list IngressGroup
}.

(** [schema.GroupVersion]. *)
Record GroupVersion : Type := mkGroupVersion {
  Group : string;
  Version : string
}.

Section Register.

(** [ingressgroup.GroupName]: the constant is declared in the parent
    package, outside the files at hand. *)
Variable GroupName : string.

(** register.go, [SchemeGroupVersion]. *)
Definition SchemeGroupVersion : GroupVersion :=
  {| Group := GroupName; Version := "v1" |}.

End Register.

(** *** encoding/json over the three structs

    A field tagged [omitempty] is left out when it holds the empty value
    of its type: the empty string, a nil or zero-length slice. A struct is
    never empty, so [metadata] and [spec] are always written. An embedded
    struct without a name in its tag contributes its fields inline. The
    strings are taken to be valid UTF-8, which the encoder writes as they
    are; it replaces the bytes of an invalid sequence by U+FFFD. *)

Section Marshal.

Variable encodeTypeMeta : Metav1.TypeMeta -> list (string * json).
Variable encodeObjectMeta : Metav1.ObjectMeta -> json.

Definition marshalServiceItem (it : ServiceItem) : json :=
  JObj [("name", JStr (Name it)); ("namespace", JStr (Namespace it))].

Definition marshalIngressGroupSpec (sp : IngressGroupSpec) : json :=
  JObj (match Services sp with
        | [] => []
        | _ :: _ => [("services", JArr (map marshalServiceItem (Services sp)))]
        end).

Definition marshalIngressGroup (g : IngressGroup) : json :=
  JObj (encodeTypeMeta (TypeMeta g)
        ++ [("metadata", encodeObjectMeta (ObjectMeta g));
            ("spec", marshalIngressGroupSpec (Spec g))]).

End Marshal.

End V1.

(** ** k8s.io/apiextensions-apiserver/pkg/apis/apiextensions/v1beta1

    The fields of the definition that [CreateIngressGroupCRD] fills in. *)

Module V1beta1.

Inductive ResourceScope : Type :=
| ClusterScoped
| NamespaceScoped.

Record CustomResourceDefinitionVersion : Type := mkVersion {
  Name : string;
  Served : bool;
  Storage : bool
}.

Record CustomResourceDefinitionNames : Type := mkNames {
  Plural : string;
  Singular : string;
  ShortNames : list string;
  Kind : string;
  ListKind : string;
  Categories : list string
}.

(** [JSONSchemaProps], restricted to [Type], [Required], [Properties] and
    [Items]; [Type_ = ""] means that no type is declared. [Items] holds the
    [Schema] of a [JSONSchemaPropsOrArray], the only alternative the
    program uses. *)
Inductive JSONSchemaProps : Type :=
| mkJSONSchemaProps (Type_ : string) (Required : list string)
                    (Properties : list (string * JSONSchemaProps))
                    (Items : option JSONSchemaProps).

Definition Type_ (s : JSONSchemaProps) : string :=
  match s with mkJSONSchemaProps t _ _ _ => t end.
Definition Required (s : JSONSchemaProps) : list string :=
  match s with mkJSONSchemaProps _ r _ _ => r end.
Definition Properties (s : JSONSchemaProps) : list (string * JSONSchemaProps) :=
  match s with mkJSONSchemaProps _ _ p _ => p end.
Definition Items (s : JSONSchemaProps) : option JSONSchemaProps :=
  match s with mkJSONSchemaProps _ _ _ i => i end.

Fixpoint property (k : string) (props : list (string * JSONSchemaProps))
  : option JSONSchemaProps :=
  match props with
  | [] => None
  | (k', s) :: rest => if String.eqb k k' then Some s else property k rest
  end.

Record CustomResourceValidation : Type := mkValidation {
  OpenAPIV3Schema : option JSONSchemaProps
}.

Record CustomResourceDefinitionSpec : Type := mkSpec {
  Group : string;
  Versions : list CustomResourceDefinitionVersion;
  Scope : ResourceScope;
  Names : CustomResourceDefinitionNames;
  Validation : option CustomResourceValidation
}.

Record CustomResourceDefinition : Type := mkCRD {
  ObjectMeta : Metav1.ObjectMeta;
  Spec : CustomResourceDefinitionSpec
}.

End V1beta1.

(** ** Go values the program manipulates *)

Module Go.

(** A Go [(value, error)] pair in which exactly one side is meaningful. *)
Inductive result (A : Type) : Type :=
| Ok (a : A)
| Err (e : Errors.error).

Arguments Ok {A} a.
Arguments Err {A} e.

(** Run-time panics the handlers can raise. *)
Inductive panic : Type :=
| TypeAssertionFailed
| NilPointerDereference
| CloseOfNilChannel.

(** [time.Duration] is an [int64] count of nanoseconds. *)
Definition Duration := Z.

Local Open Scope Z_scope.

Definition wrap64 (z : Z) : Z :=
  (z + 2 ^ 63) mod 2 ^ 64 - 2 ^ 63.

Definition Second : Duration := 1000000000.

Definition mulDuration (a b : Duration) : Duration := wrap64 (a * b).

(** A channel value: [None] is the nil channel, [Some n] the channel
    allocated under identifier [n]. *)
Definition chan := option nat.

(** [context.Context], as far as [Done] is concerned: the empty contexts
    returned by [context.Background] and [context.TODO] can never be
    cancelled, a cancellable context owns its done channel. *)
Inductive Context : Type :=
| backgroundCtx
| todoCtx
| cancelCtx (done : nat).

Definition TODO : Context := todoCtx.

Definition Done (ctx : Context) : chan :=
  match ctx with
  | backgroundCtx => None
  | todoCtx => None
  | cancelCtx d => Some d
  end.

(** An [interface{}] value as the informer hands it to a handler: the nil
    interface, a [*v1.IngressGroup] (whose pointer may itself be nil), the
    [cache.DeletedFinalStateUnknown] tombstone the informer delivers when
    it missed a deletion, or a value of some other dynamic type. *)
Inductive iface : Type :=
| nilInterface
| ptrIngressGroup (p : option V1.IngressGroup)
| deletedFinalStateUnknown (key : string) (obj : iface)
| otherValue (typeName : string).

Definition isIngressGroupPtr (obj : iface) : bool :=
  match obj with
  | ptrIngressGroup _ => true
  | _ => false
  end.

(** What a goroutine's computation comes to. *)
Inductive outcome (A : Type) : Type :=
| Val (a : A)
| Exited (code : Z)
| Panicked (p : panic)
| Blocked.

Arguments Val {A} a.
Arguments Exited {A} code.
Arguments Panicked {A} p.
Arguments Blocked {A}.

(** A computation over the state [W]: it leaves a state and either a
    value, an exit status, a panic, or a goroutine parked for good. *)
Definition Task (W A : Type) : Type := W -> W * outcome A.

Definition taskRet {W A : Type} (a : A) : Task W A := fun w => (w, Val a).

Definition taskBind {W A B : Type} (c : Task W A) (k : A -> Task W B)
  : Task W B :=
  fun w =>
    match c w with
    | (w', Val a) => k a w'
    | (w', Exited code) => (w', Exited code)
    | (w', Panicked p) => (w', Panicked p)
    | (w', Blocked) => (w', Blocked)
    end.

#[export] Instance Monad_Task (W : Type) : Monad (Task W) :=
  {| ret := @taskRet W; bind := @taskBind W |}.

Definition raisePanic {W A : Type} (p : panic) : Task W A :=
  fun w => (w, Panicked p).

(** [os.Exit]. *)
Definition Exit {W A : Type} (code : Z) : Task W A :=
  fun w => (w, Exited code).

(** The unchecked assertion of [x] to [*v1.IngressGroup]: panics unless
    the dynamic type matches. *)
Definition assertIngressGroup {W : Type} (obj : iface)
  : Task W (option V1.IngressGroup) :=
  match obj with
  | ptrIngressGroup p => taskRet p
  | _ => raisePanic TypeAssertionFailed
  end.

(** The comma-ok assertion of [x] to [*v1.IngressGroup]: the nil pointer
    and [false] on a mismatch. *)
Definition assertIngressGroupOk (obj : iface)
  : option V1.IngressGroup * bool :=
  match obj with
  | ptrIngressGroup p => (p, true)
  | _ => (None, false)
  end.

(** Reading a field through a pointer. *)
Definition deref {W A : Type} (p : option A) : Task W A :=
  match p with
  | Some a => taskRet a
  | None => raisePanic NilPointerDereference
  end.

End Go.

(** ** The process's console: [os.Stderr] and klog *)

Module Console.

Import Go.

Inductive Severity : Type :=
| Info
| Warning
| Fatal.

(** What the program's own calls have put out so far, oldest first.
    [stderr] holds the writes the program makes to [os.Stderr] itself, with
    [fmt.Fprint] and [fmt.Fprintf]; [klog] holds the lines of the program's
    own klog calls. Where klog sends its lines is klog's configuration and
    is not part of the record: by default they reach [os.Stderr] as well,
    and a Fatal line is followed there by the goroutine stacks. What the
    libraries log on their own account is not recorded either. *)
Record Console : Type := mkConsole {
  stderr : list string;
  klog : list (Severity * string)
}.

Definition empty : Console := {| stderr := []; klog := [] |}.

Definition write (s : string) (c : Console) : Console :=
  {| stderr := stderr c ++ [s]; klog := klog c |}.

Definition log (sev : Severity) (s : string) (c : Console) : Console :=
  {| stderr := stderr c; klog := klog c ++ [(sev, s)] |}.

(** A state that contains the console. *)
Class HasConsole (W : Type) : Type := {
  getConsole : W -> Console;
  setConsole : Console -> W -> W
}.

#[export] Instance HasConsole_Console : HasConsole Console :=
  {| getConsole := fun c => c; setConsole := fun c _ => c |}.

Section Ops.

Context {W : Type} `{HasConsole W}.

Definition onConsole (f : Console -> Console) : Task W unit :=
  fun w => (setConsole (f (getConsole w)) w, Val tt).

(** [fmt.Fprint(os.Stderr, ...)] with the text already formatted. *)
Definition FprintStderr (s : string) : Task W unit := onConsole (write s).

Definition Infof (s : string) : Task W unit := onConsole (log Info s).

Definition Warningf (s : string) : Task W unit := onConsole (log Warning s).

(** [klog.Fatal] and [klog.Fatalf] log and leave through [os.Exit(255)];
    the line is recorded as a klog line, see [Console]. *)
Definition Fatalf {A : Type} (s : string) : Task W A :=
  fun w => (setConsole (log Fatal s (getConsole w)) w, Exited 255%Z).

End Ops.

End Console.

(** ** k8s.io/client-go/rest *)

Module Rest.

(** [rest.Config], the fields [createClients] touches. [QPS] is a
    [float32] in Go; the program only stores the integer 100 in it. *)
Record Config : Type := mkConfig {
  Host : string;
  QPS : Z;
  Burst : Z;
  UserAgent : string
}.

Definition setQPS (q : Z) (c : Config) : Config :=
  {| Host := Host c; QPS := q; Burst := Burst c; UserAgent := UserAgent c |}.

Definition setBurst (b : Z) (c : Config) : Config :=
  {| Host := Host c; QPS := QPS c; Burst := b; UserAgent := UserAgent c |}.

(** [rest.AddUserAgent] stores the default agent of the binary, a slash
    and the agent it is given in the config, and returns that same config.
    [defaultAgent] is what [rest.DefaultKubernetesUserAgent()] returns. *)
Definition AddUserAgent (defaultAgent : string) (c : Config)
           (userAgent : string) : Config :=
  {| Host := Host c; QPS := QPS c; Burst := Burst c;
     UserAgent := defaultAgent ++ "/" ++ userAgent |}.

(** The three client sets, each built from a config. *)
Record KubeClientset : Type := mkKubeClientset { kubeConfig : Config }.
Record ExtensionsClientset : Type := mkExtensionsClientset { extensionsConfig : Config }.
Record VersionedClientset : Type := mkVersionedClientset { versionedConfig : Config }.

End Rest.

(** ** k8s.io/client-go/tools/cache: event handlers *)

Module Cache.

Import Go Console.

(** [cache.ResourceEventHandlerFuncs]: any of the three may be nil. The
    callbacks run on the informer's goroutine and see the console only. *)
Record ResourceEventHandlerFuncs : Type := mkHandlerFuncs {
  AddFunc : option (iface -> Task Console unit);
  UpdateFunc : option (iface -> iface -> Task Console unit);
  DeleteFunc : option (iface -> Task Console unit)
}.

Definition OnAdd (r : ResourceEventHandlerFuncs) (obj : iface)
  : Task Console unit :=
  match AddFunc r with
  | Some f => f obj
  | None => taskRet tt
  end.

Definition OnUpdate (r : ResourceEventHandlerFuncs) (oldObj newObj : iface)
  : Task Console unit :=
  match UpdateFunc r with
  | Some f => f oldObj newObj
  | None => taskRet tt
  end.

Definition OnDelete (r : ResourceEventHandlerFuncs) (obj : iface)
  : Task Console unit :=
  match DeleteFunc r with
  | Some f => f obj
  | None => taskRet tt
  end.

(** What the informer distributes to its listeners. *)
Inductive notification : Type :=
| addNotification (newObj : iface)
| updateNotification (oldObj newObj : iface)
| deleteNotification (oldObj : iface).

Definition deliver (r : ResourceEventHandlerFuncs) (n : notification)
  : Task Console unit :=
  match n with
  | addNotification obj => OnAdd r obj
  | updateNotification oldObj newObj => OnUpdate r oldObj newObj
  | deleteNotification obj => OnDelete r obj
  end.

End Cache.

(** ** pkg/client/informers/externalversions *)

Module Informers.

Import Go.
Local Open Scope Z_scope.

Record SharedInformerFactory : Type := mkFactory {
  client : Rest.VersionedClientset;
  defaultResync : Duration;
  ingressGroupHandlers : list Cache.ResourceEventHandlerFuncs
}.

(** Modelled from the spec: the informer factory is generated code of the
    repository that is not among the source files. Section 4.3, step 3:
    resync runs "on a periodic timer (configurable; zero duration disables
    periodic resync and relies solely on live events)". The factory keeps
    the period it is constructed with. *)
Definition NewSharedInformerFactory (c : Rest.VersionedClientset)
           (defaultResync : Duration) : SharedInformerFactory :=
  {| client := c; defaultResync := defaultResync; ingressGroupHandlers := [] |}.

(** Modelled from the spec: the resync timer of section 4.3, step 3. It
    fires at the positive multiples of a non-zero period and never for the
    zero period. *)
Definition resyncFiresAt (f : SharedInformerFactory) (t : Duration) : bool :=
  if defaultResync f =? 0 then false
  else (0 <? t) && (t mod defaultResync f =? 0).

(** What can make the list-watch client touch the cache at a moment. *)
Inductive trigger : Type :=
| LiveEvent
| PeriodicResync.

(** Modelled from the spec: the triggers at time [t], given whether the
    watch stream delivers an event then. *)
Definition triggersAt (f : SharedInformerFactory) (t : Duration)
           (watchEvent : bool) : list trigger :=
  (if watchEvent then [LiveEvent] else [])
  ++ (if resyncFiresAt f t then [PeriodicResync] else []).

(** [Cr().V1().IngressGroups().Informer().AddEventHandler(h)]. *)
Definition AddEventHandler (h : Cache.ResourceEventHandlerFuncs)
           (f : SharedInformerFactory) : SharedInformerFactory :=
  {| client := client f;
     defaultResync := defaultResync f;
     ingressGroupHandlers := ingressGroupHandlers f ++ [h] |}.

End Informers.

(** ** The process and the cluster it talks to *)

Module World.

Import Go Console.

Record World : Type := mkWorld {
  console : Console;
  (** definitions submitted to the cluster API, oldest first *)
  requests : list V1beta1.CustomResourceDefinition;
  (** definitions the cluster stores *)
  cluster : list V1beta1.CustomResourceDefinition;
  (** fate of the coming API calls: [Some e] fails the call with [e]
      before it reaches the store; an exhausted list lets calls through *)
  transport : list (option Errors.error);
  (** channels closed so far *)
  closed : list nat;
  (** informer factories started, each with its stop channel *)
  started : list (Informers.SharedInformerFactory * chan)
}.

#[export] Instance HasConsole_World : HasConsole World :=
  {| getConsole := console;
     setConsole := fun c w =>
       {| console := c; requests := requests w; cluster := cluster w;
          transport := transport w; closed := closed w;
          started := started w |} |}.

Definition crdName (crd : V1beta1.CustomResourceDefinition) : string :=
  Metav1.Name (V1beta1.ObjectMeta crd).

Definition stored (name : string)
           (store : list V1beta1.CustomResourceDefinition) : bool :=
  existsb (fun c => String.eqb (crdName c) name) store.

(** The world once a request carrying [crd] has been sent and the cluster
    holds [store]. *)
Definition sent (crd : V1beta1.CustomResourceDefinition)
           (store : list V1beta1.CustomResourceDefinition) (w : World) : World :=
  {| console := console w; requests := requests w ++ [crd];
     cluster := store; transport := tl (transport w);
     closed := closed w; started := started w |}.

(** Modelled from the spec: the cluster API boundary of section 6,
    [CreateSchema(definition) -> success|AlreadyExists|Error]. A call the
    transport fails returns that error and stores nothing; a call that
    reaches the store answers AlreadyExists when a definition of that name
    is stored and stores the definition otherwise. *)
Definition Create (client : Rest.ExtensionsClientset)
           (crd : V1beta1.CustomResourceDefinition)
  : Task World (result V1beta1.CustomResourceDefinition) :=
  fun w =>
    match transport w with
    | Some e :: _ => (sent crd (cluster w) w, Val (Err e))
    | _ =>
      if stored (crdName crd) (cluster w)
      then (sent crd (cluster w) w,
            Val (Err (Errors.NewAlreadyExists
                        "customresourcedefinitions.apiextensions.k8s.io"
                        (crdName crd))))
      else (sent crd (cluster w ++ [crd]) w, Val (Ok crd))
    end.

(** [factory.Start(stopCh)] hands the factory's informers to goroutines
    that run until [stopCh] is closed. *)
Definition Start (f : Informers.SharedInformerFactory) (stopCh : chan)
  : Task World unit :=
  fun w =>
    ({| console := console w; requests := requests w; cluster := cluster w;
        transport := transport w; closed := closed w;
        started := started w ++ [(f, stopCh)] |}, Val tt).

Definition isClosed (n : nat) (w : World) : bool :=
  existsb (Nat.eqb n) (closed w).

(** The receive [<-c] on a channel nothing is ever sent on: it completes
    once the channel is closed; on the nil channel it never does. *)
Definition recv (c : chan) : Task World unit :=
  fun w =>
    match c with
    | None => (w, Blocked)
    | Some n => if isClosed n w then (w, Val tt) else (w, Blocked)
    end.

End World.

(** ** The flag package *)

Module Flag.

Import Go.

Section FlagSet.

(** The struct the flag values are stored into. *)
Variable T : Type.

Record Flag : Type := mkFlag {
  Name : string;
  Usage : string;
  DefValue : string;
  store : string -> T -> T
}.

Definition FlagSet : Type := list Flag.

(** [StringVar(p, name, value, usage)]: [p] receives the default and
    the flag is added to the set. *)
Definition StringVar (p : string -> T -> T) (name value usage : string)
           (st : FlagSet * T) : FlagSet * T :=
  (fst st ++ [mkFlag name usage value p], p value (snd st)).

Fixpoint Lookup (name : string) (fs : FlagSet) : option Flag :=
  match fs with
  | [] => None
  | f :: rest => if String.eqb (Name f) name then Some f else Lookup name rest
  end.

(** [flag.ErrHelp], returned when help is asked for and no such flag is
    defined. *)
Definition ErrHelp : Errors.error := Errors.Errorf "flag: help requested".

Definition isHelp (err : Errors.error) : bool :=
  String.eqb (Errors.Message err) (Errors.Message ErrHelp).

(** [Parse] over a command line already split into [-name=value]
    assignments: each one sets its flag; a name that is not defined stops
    the parse, with [ErrHelp] when the name is [help] or [h] and with an
    error that names the flag otherwise. *)
Fixpoint Parse (args : list (string * string)) (fs : FlagSet) (target : T)
  : result T :=
  match args with
  | [] => Ok target
  | (name, value) :: rest =>
    match Lookup name fs with
    | Some f => Parse rest fs (store f value target)
    | None =>
      if String.eqb name "help" || String.eqb name "h" then Err ErrHelp
      else Err (Errors.Errorf ("flag provided but not defined: -" ++ name))
    end
  end.

End FlagSet.

Arguments Name {T} f.
Arguments Usage {T} f.
Arguments DefValue {T} f.
Arguments store {T} f.
Arguments StringVar {T} p name value usage st.
Arguments Lookup {T} name fs.
Arguments Parse {T} args fs target.

End Flag.

(** ** main.go *)

Module Main.

Import Go Console World.
Local Open Scope monad_scope.

Record OperatorManagerServer : Type := mkOperatorManagerServer {
  Master : string;
  Kubeconfig : string
}.

Definition setMaster (v : string) (s : OperatorManagerServer)
  : OperatorManagerServer :=
  {| Master := v; Kubeconfig := Kubeconfig s |}.

Definition setKubeconfig (v : string) (s : OperatorManagerServer)
  : OperatorManagerServer :=
  {| Master := Master s; Kubeconfig := v |}.

(** [NewOMServer] returns the zero value of the struct. *)
Definition NewOMServer : OperatorManagerServer :=
  {| Master := ""; Kubeconfig := "" |}.

(** What the program imports and calls but does not define. *)
Record Externals : Type := mkExternals {
  (** [ingressgroup.GroupName] *)
  GroupName : string;
  (** [version.Get()], formatted with [%+v] *)
  versionInfo : string;
  (** whether [verflag] finds the version flag set *)
  versionRequested : bool;
  (** what the flag package prints as usage: the program's name and the
      defaults of every flag on the command line, those of imported
      packages included *)
  usage : string;
  (** the status the flag package exits with when help was asked for; it
      depends on the Go release *)
  helpExitStatus : Z;
  (** [rest.DefaultKubernetesUserAgent()] *)
  defaultUserAgent : string;
  (** [clientcmd.BuildConfigFromFlags(masterUrl, kubeconfigPath)]: the
      config or the error it returns; what it logs itself is the
      library's output, see [Console] *)
  BuildConfigFromFlags : string -> string -> result Rest.Config;
  (** the error, if any, of the three [NewForConfig] constructors *)
  kubeNewForConfig : Rest.Config -> option Errors.error;
  extensionsNewForConfig : Rest.Config -> option Errors.error;
  versionedNewForConfig : Rest.Config -> option Errors.error
}.

Definition newline : string := String (ascii_of_nat 10) EmptyString.

(** *** The event handlers registered by [Run] (lines 87-104) *)

Definition addIngGroupFunc (obj : iface) : Task Console unit :=
  addIngGroup <- assertIngressGroup obj ;;
  g <- deref addIngGroup ;;
  Warningf ("addIngGroup: " ++ Metav1.Namespace (V1.ObjectMeta g)
            ++ "/" ++ Metav1.Name (V1.ObjectMeta g)).

Definition delIngGroupFunc (obj : iface) : Task Console unit :=
  let (delIngGroup, _) := assertIngressGroupOk obj in
  g <- deref delIngGroup ;;
  Warningf ("delIngGroup: " ++ Metav1.Namespace (V1.ObjectMeta g)
            ++ "/" ++ Metav1.Name (V1.ObjectMeta g)).

Definition updateIngGroupFunc (old cur : iface) : Task Console unit :=
  oldIngGroup <- assertIngressGroup old ;;
  curIngGroup <- assertIngressGroup cur ;;
  o <- deref oldIngGroup ;;
  c <- deref curIngGroup ;;
  Warningf ("oldIngGroup: " ++ Metav1.Namespace (V1.ObjectMeta o)
            ++ "/" ++ Metav1.Name (V1.ObjectMeta o)
            ++ " ; curIngGroup: " ++ Metav1.Namespace (V1.ObjectMeta c)
            ++ "/" ++ Metav1.Name (V1.ObjectMeta c)).

Definition ingGroupEventHandler : Cache.ResourceEventHandlerFuncs :=
  {| Cache.AddFunc := Some addIngGroupFunc;
     Cache.DeleteFunc := Some delIngGroupFunc;
     Cache.UpdateFunc := Some updateIngGroupFunc |}.

(** *** The flags [main] defines (lines 37-39) *)

Definition masterUsage : string :=
  "The address of the Kubernetes API server (overrides any value in kubeconfig)".

Definition kubeconfigUsage : string :=
  "Path to kubeconfig file with authorization and master location information.".

Definition defineFlags
  : Flag.FlagSet OperatorManagerServer * OperatorManagerServer :=
  let s := NewOMServer in
  let st := Flag.StringVar setMaster "master" (Master s) masterUsage ([], s) in
  Flag.StringVar setKubeconfig "kubeconfig" (Kubeconfig (snd st))
                 kubeconfigUsage st.

(** The factory [Run] has built when it calls [Start] (lines 81-106). *)
Definition startedFactory (versionedClient : Rest.VersionedClientset)
  : Informers.SharedInformerFactory :=
  Informers.AddEventHandler ingGroupEventHandler
    (Informers.NewSharedInformerFactory
       versionedClient (mulDuration 0%Z Second)).

Section Program.

Variable X : Externals.

(** [v1.SchemeGroupVersion] with the group name of the environment. *)
Definition SchemeGroupVersion : V1.GroupVersion :=
  V1.SchemeGroupVersion (GroupName X).

Definition stringSchema : V1beta1.JSONSchemaProps :=
  V1beta1.mkJSONSchemaProps "string" [] [] None.

(** The definition [CreateIngressGroupCRD] builds (lines 137-189). *)
Definition crd : V1beta1.CustomResourceDefinition :=
  {| V1beta1.ObjectMeta :=
       {| Metav1.Name := "ingressgroups." ++ V1.Group SchemeGroupVersion;
          Metav1.Namespace := "";
          Metav1.ResourceVersion := "" |};
     V1beta1.Spec :=
       {| V1beta1.Group := V1.Group SchemeGroupVersion;
          V1beta1.Versions :=
            [ {| V1beta1.Served := true;
                 V1beta1.Name := V1.Version SchemeGroupVersion;
                 V1beta1.Storage := true |} ];
          V1beta1.Scope := V1beta1.NamespaceScoped;
          V1beta1.Names :=
            {| V1beta1.Kind := "IngressGroup";
               V1beta1.ListKind := "IngressGroupList";
               V1beta1.Plural := "ingressgroups";
               V1beta1.Singular := "ingressgroup";
               V1beta1.ShortNames := ["ig"];
               V1beta1.Categories := ["all"] |};
          V1beta1.Validation := Some
            {| V1beta1.OpenAPIV3Schema := Some
               (V1beta1.mkJSONSchemaProps "" []
                  [("spec",
                    V1beta1.mkJSONSchemaProps "" []
                      [("services",
                        V1beta1.mkJSONSchemaProps "array" [] []
                          (Some (V1beta1.mkJSONSchemaProps "object"
                                   ["name"; "namespace"]
                                   [("name", stringSchema);
                                    ("namespace", stringSchema)]
                                   None)))]
                      None)]
                  None) |} |} |}.

Definition CreateIngressGroupCRD (extensionCRClient : Rest.ExtensionsClientset)
  : Task World (option Errors.error) :=
  r <- Create extensionCRClient crd ;;
  match r with
  | Ok _ => ret None
  | Err err => ret (Some err)
  end.

Definition createClients (s : OperatorManagerServer)
  : Task World
         (result (Rest.KubeClientset * Rest.ExtensionsClientset * Rest.Config)) :=
  match BuildConfigFromFlags X (Master s) (Kubeconfig s) with
  | Err err => ret (Err err)
  | Ok kubeconfig =>
    let kubeconfig := Rest.setQPS 100%Z kubeconfig in
    let kubeconfig := Rest.setBurst 100%Z kubeconfig in
    let kubeconfig :=
    Rest.AddUserAgent (defaultUserAgent X) kubeconfig "operator-manager" in
    kubeClient <-
      match kubeNewForConfig X kubeconfig with
      | Some err => Fatalf ("Invalid API configuration: " ++ Errors.Message err)
      | None => ret (Rest.mkKubeClientset kubeconfig)
      end ;;
    let kubeconfig :=
    Rest.AddUserAgent (defaultUserAgent X) kubeconfig "operator-manager" in
    extensionClient <-
      match extensionsNewForConfig X kubeconfig with
      | Some err => Fatalf ("Invalid API configuration: " ++ Errors.Message err)
      | None => ret (Rest.mkExtensionsClientset kubeconfig)
      end ;;
    ret (Ok (kubeClient, extensionClient, kubeconfig))
  end.

Definition Run (s : OperatorManagerServer) : Task World (option Errors.error) :=
  Infof ("Version: " ++ versionInfo X) ;;
  r <- createClients s ;;
  match r with
  | Err err => ret (Some err)
  | Ok (_, extensionCRClient, kubeconfig) =>
    err <- CreateIngressGroupCRD extensionCRClient ;;
    failed <-
      match err with
      | Some err =>
        if Errors.IsAlreadyExists err
        then Infof "redis cluster crd is already created." ;; ret None
        else FprintStderr (Errors.Message err) ;; ret (Some err)
      | None => ret None
      end ;;
    match failed with
    | Some err => ret (Some err)
    | None =>
      versionedClient <-
        match versionedNewForConfig X kubeconfig with
        | Some err => Fatalf (Errors.Message err)
        | None => ret (Rest.mkVersionedClientset kubeconfig)
        end ;;
      let sharedInformers :=
        Informers.NewSharedInformerFactory
          versionedClient (mulDuration 0%Z Second) in
      let ctx := TODO in
      let stopCh := Done ctx in
      let sharedInformers :=
        Informers.AddEventHandler ingGroupEventHandler sharedInformers in
      Start sharedInformers stopCh ;;
      recv stopCh ;;
      ret (Some (Errors.Errorf "unreachable"))
    end
  end.

(** [main], given the command line as flag assignments. On a parse error
    the flag package, with its default error handling, prints the error and
    the usage and exits with status 2; when help was asked for it prints the
    usage alone. The flag set is the one [main] defines: flags that
    imported packages add to the command line are not modelled.
    [logs.InitLogs] and the deferred [logs.FlushLogs] only configure and
    flush the logger and are left out. *)
Definition main (args : list (string * string)) : Task World unit :=
  let st := defineFlags in
  match Flag.Parse args (fst st) (snd st) with
  | Err err =>
    (if Flag.isHelp err then ret tt
     else FprintStderr (Errors.Message err ++ newline)) ;;
    FprintStderr (usage X) ;;
    Exit (if Flag.isHelp err then helpExitStatus X else 2%Z)
  | Ok s =>
    (if versionRequested X then Exit 0%Z else ret tt) ;;
    err <- Run s ;;
    match err with
    | Some err => FprintStderr (Errors.Message err ++ newline) ;; Exit 1%Z
    | None => ret tt
    end
  end.

End Program.

End Main.

(** ** Structural validation against the published schema *)

Module Validation.

Import Json V1beta1.

Definition showNat (n : nat) : string :=
  NilZero.string_of_uint (Nat.to_uint n).

(** The members of a field path: [a.b] below a non-empty prefix. *)
Definition child (path k : string) : string :=
  if String.eqb path "" then k else path ++ "." ++ k.

Definition element (path : string) (i : nat) : string :=
  path ++ "[" ++ showNat i ++ "]".

Fixpoint indexFrom {A : Type} (n : nat) (l : list A) : list (nat * A) :=
  match l with
  | [] => []
  | x :: rest => (n, x) :: indexFrom (S n) rest
  end.

Definition typeMatches (t : string) (v : json) : bool :=
  String.eqb t "" || String.eqb (typeOf v) t.

Definition missing (path : string) (members : list (string * json))
           (required : list string) : list string :=
  flat_map (fun r => match lookup r members with
                     | None => [(child path r ++ ": required")%string]
                     | Some _ => []
                     end) required.

(** Modelled from the spec: the validation function of the Resource Schema,
    section 4.1, which is not among the source files: "given a candidate
    spec payload, returns success or a structured validation error
    identifying the missing/malformed field path (e.g.,
    services[2].namespace: required)". The result lists the violations,
    the empty list being success. [Type], [Required] and [Properties]
    constrain objects, [Items] the elements of arrays. *)
Fixpoint validate (s : JSONSchemaProps) (path : string) (v : json)
         {struct s} : list string :=
  match s with
  | mkJSONSchemaProps t required props items =>
    (if typeMatches t v then [] else [(path ++ ": must be " ++ t)%string])
    ++ match v with
       | JObj members =>
         missing path members required
         ++ (fix eachProperty (ps : list (string * JSONSchemaProps))
               : list string :=
               match ps with
               | [] => []
               | (k, sub) :: rest =>
                 match lookup k members with
                 | Some v' => validate sub (child path k) v'
                 | None => []
                 end ++ eachProperty rest
               end) props
       | JArr elems =>
         match items with
         | Some sub =>
           flat_map (fun ie => validate sub (element path (fst ie)) (snd ie))
                    (indexFrom 0 elems)
         | None => []
         end
       | _ => []
       end
  end.

(** Admission of an object of the kind a definition declares: it is
    accepted when the definition publishes no schema or the schema finds
    no violation. *)
Definition violations (c : CustomResourceDefinition) (obj : json)
  : list string :=
  match Validation (Spec c) with
  | Some {| OpenAPIV3Schema := Some s |} => validate s "" obj
  | _ => []
  end.

Definition accepts (c : CustomResourceDefinition) (obj : json) : bool :=
  match violations c obj with
  | [] => true
  | _ :: _ => false
  end.

(** The schema a definition publishes for [spec.services], and the one for
    the elements of that array. *)
Definition servicesSchema (c : CustomResourceDefinition)
  : option JSONSchemaProps :=
  match Validation (Spec c) with
  | Some {| OpenAPIV3Schema := Some root |} =>
    match property "spec" (Properties root) with
    | Some specSchema => property "services" (Properties specSchema)
    | None => None
    end
  | _ => None
  end.

Definition serviceItemSchema (c : CustomResourceDefinition)
  : option JSONSchemaProps :=
  match servicesSchema c with
  | Some s => Items s
  | None => None
  end.

Definition propertyType (k : string) (s : JSONSchemaProps) : option string :=
  match property k (Properties s) with
  | Some p => Some (Type_ p)
  | None => None
  end.

End Validation.

(** ** A sample environment

    One concrete choice of everything the program takes from outside, for
    running the definitions above. *)

Module Sample.

Import Go Console World Main.

Definition config : Rest.Config :=
  {| Rest.Host := "https://10.96.0.1:443"; Rest.QPS := 5; Rest.Burst := 10;
     Rest.UserAgent := "" |}.

Definition X : Externals :=
  {| GroupName := "cr.example.io";
     versionInfo := "v0.0.0";
     versionRequested := false;
   usage := "Usage of operator-manager:";
   helpExitStatus := 2;
   defaultUserAgent :=
     "operator-manager/v0.0.0 (linux/amd64) kubernetes/$Format";
     BuildConfigFromFlags := fun _ _ => Ok config;
     kubeNewForConfig := fun _ => None;
     extensionsNewForConfig := fun _ => None;
     versionedNewForConfig := fun _ => None |}.

(** A fresh process facing an empty, reachable cluster. *)
Definition fresh : World :=
  {| console := Console.empty; requests := []; cluster := [];
     transport := []; closed := []; started := [] |}.

(** The same, with the next API call refused by the cluster. *)
Definition forbidden : Errors.error :=
  Errors.mkError Errors.StatusReasonForbidden
                 "customresourcedefinitions is forbidden".

Definition refusing : World :=
  {| console := Console.empty; requests := []; cluster := [];
     transport := [Some forbidden]; closed := []; started := [] |}.

(** A cluster in which an earlier run has installed the definition. *)
Definition registered : World :=
  {| console := Console.empty; requests := []; cluster := [crd X];
     transport := []; closed := []; started := [] |}.

Definition group (name namespace version : string)
           (services : list V1.ServiceItem) : V1.IngressGroup :=
  {| V1.TypeMeta := {| Metav1.Kind := "IngressGroup";
                       Metav1.APIVersion := "cr.example.io/v1" |};
     V1.ObjectMeta := {| Metav1.Name := name; Metav1.Namespace := namespace;
                         Metav1.ResourceVersion := version |};
     V1.Spec := {| V1.Services := services |} |}.

Definition g1 : V1.IngressGroup :=
  group "g1" "default" "100" [V1.mkServiceItem "svc1" "default"].

Definition g1' : V1.IngressGroup :=
  group "g1" "default" "101"
        [V1.mkServiceItem "svc1" "default"; V1.mkServiceItem "svc2" "default"].

Definition bare : V1.IngressGroup := group "g0" "default" "1" [].

(** Encoders of the embedded metadata, as apimachinery tags it. *)
Definition encodeTypeMeta (t : Metav1.TypeMeta) : list (string * Json.json) :=
  (if String.eqb (Metav1.Kind t) "" then []
   else [("kind", Json.JStr (Metav1.Kind t))])
  ++ (if String.eqb (Metav1.APIVersion t) "" then []
      else [("apiVersion", Json.JStr (Metav1.APIVersion t))]).

Definition encodeObjectMeta (m : Metav1.ObjectMeta) : Json.json :=
  Json.JObj [("name", Json.JStr (Metav1.Name m));
             ("namespace", Json.JStr (Metav1.Namespace m));
             ("resourceVersion", Json.JStr (Metav1.ResourceVersion m))].

(** An object whose third service item has no namespace. *)
Definition incomplete : Json.json :=
  Json.JObj
    [("kind", Json.JStr "IngressGroup");
     ("metadata", Json.JObj [("name", Json.JStr "g3")]);
     ("spec", Json.JObj
        [("services", Json.JArr
           [Json.JObj [("name", Json.JStr "svc1");
                       ("namespace", Json.JStr "default")];
            Json.JObj [("name", Json.JStr "svc2");
                       ("namespace", Json.JStr "default")];
            Json.JObj [("name", Json.JStr "svc3")]])])].

End Sample.

(** ** Vocabulary of the properties *)

Module Vocabulary.

Import Go Console World Main.

(** [err] is an error of start-up: the client configuration could not be
    built, or registration failed with something other than AlreadyExists. *)
Definition startupError (X : Externals) (s : OperatorManagerServer) (w : World)
           (err : Errors.error) : Prop :=
  BuildConfigFromFlags X (Master s) (Kubeconfig s) = Err err
  \/ exists w1 clients w2,
      createClients X s (fst (Infof ("Version: " ++ versionInfo X) w))
        = (w1, Val (Ok clients))
      /\ CreateIngressGroupCRD X (snd (fst clients)) w1 = (w2, Val (Some err))
      /\ Errors.IsAlreadyExists err = false.

(** How the handlers print a group: namespace, a slash, name. *)
Definition identity (g : V1.IngressGroup) : string :=
  Metav1.Namespace (V1.ObjectMeta g) ++ "/" ++ Metav1.Name (V1.ObjectMeta g).

(** How often a name occurs among the stored definitions. *)
Definition occurrences (name : string)
           (store : list V1beta1.CustomResourceDefinition) : nat :=
  length (filter (fun c => String.eqb (crdName c) name) store).

(** An encoded service item: an object with exactly the members [name] and
    [namespace], in that order, holding the item's two strings. *)
Definition encodesItem (it : V1.ServiceItem) (v : Json.json) : Prop :=
  exists members,
    v = Json.JObj members
    /\ Json.keys members = ["name"; "namespace"]
    /\ Json.lookup "name" members = Some (Json.JStr (V1.Name it))
    /\ Json.lookup "namespace" members = Some (Json.JStr (V1.Namespace it)).

(** The config [createClients] hands on, from the one it was given. *)
Definition adjusted (X : Externals) (cfg : Rest.Config) : Rest.Config :=
  Rest.AddUserAgent (defaultUserAgent X)
                    (Rest.setBurst 100 (Rest.setQPS 100 cfg))
                    "operator-manager".

End Vocabulary.

(** ** k8s.io/apimachinery/pkg/runtime/schema

    The qualified names [register.go] builds from [SchemeGroupVersion]. *)

Module Schema.

Module GroupKind.

Record t : Type := mk {
  Group : string;
  Kind : string
}.

Definition String (gk : t) : string :=
  if String.eqb (Group gk) "" then Kind gk
  else Kind gk ++ "." ++ Group gk.

End GroupKind.

Module GroupResource.

Record t : Type := mk {
  Group : string;
  Resource : string
}.

Definition String (gr : t) : string :=
  if String.eqb (Group gr) "" then Resource gr
  else Resource gr ++ "." ++ Group gr.

End GroupResource.

Module GroupVersionKind.

Record t : Type := mk {
  Group : string;
  Version : string;
  Kind : string
}.

Definition GroupKind (gvk : t) : GroupKind.t :=
  {| GroupKind.Group := Group gvk; GroupKind.Kind := Kind gvk |}.

Definition eqb (a b : t) : bool :=
  String.eqb (Group a) (Group b)
  && String.eqb (Version a) (Version b)
  && String.eqb (Kind a) (Kind b).

End GroupVersionKind.

Module GroupVersionResource.

Record t : Type := mk {
  Group : string;
  Version : string;
  Resource : string
}.

Definition GroupResource (gvr : t) : GroupResource.t :=
  {| GroupResource.Group := Group gvr; GroupResource.Resource := Resource gvr |}.

End GroupVersionResource.

Definition WithKind (gv : V1.GroupVersion) (kind : string)
  : GroupVersionKind.t :=
  {| GroupVersionKind.Group := V1.Group gv;
     GroupVersionKind.Version := V1.Version gv;
     GroupVersionKind.Kind := kind |}.

Definition WithResource (gv : V1.GroupVersion) (resource : string)
  : GroupVersionResource.t :=
  {| GroupVersionResource.Group := V1.Group gv;
     GroupVersionResource.Version := V1.Version gv;
     GroupVersionResource.Resource := resource |}.

End Schema.

(** ** k8s.io/apimachinery/pkg/runtime: the scheme

    The part of [runtime.Scheme] that [addKnownTypes] writes: the table from
    a group, version and kind to the Go type registered under it. *)

Module Runtime.

Import Schema.

(** A Go struct type, by the package it is declared in and its name. *)
Record GoType : Type := mkGoType {
  PkgPath : string;
  TypeName : string
}.

Definition type_eqb (a b : GoType) : bool :=
  String.eqb (PkgPath a) (PkgPath b) && String.eqb (TypeName a) (TypeName b).

Definition Scheme : Type := list (GroupVersionKind.t * GoType).

Fixpoint typeOfKind (gvk : GroupVersionKind.t) (s : Scheme) : option GoType :=
  match s with
  | [] => None
  | (k, t) :: rest =>
    if GroupVersionKind.eqb k gvk then Some t else typeOfKind gvk rest
  end.

(** [AddKnownTypeWithName]: panics ([None]) on an empty version and on a
    kind already registered to a different type; registering the same type
    again changes nothing. *)
Definition AddKnownTypeWithName (gvk : GroupVersionKind.t) (t : GoType)
           (s : Scheme) : option Scheme :=
  if String.eqb (GroupVersionKind.Version gvk) "" then None
  else match typeOfKind gvk s with
       | Some old => if type_eqb old t then Some s else None
       | None => Some (s ++ [(gvk, t)])
       end.

(** [AddKnownTypes]: each type is registered under its own name as kind. *)
Fixpoint AddKnownTypes (gv : V1.GroupVersion) (types : list GoType)
         (s : Scheme) : option Scheme :=
  match types with
  | [] => Some s
  | t :: rest =>
    match AddKnownTypeWithName (WithKind gv (TypeName t)) t s with
    | Some s' => AddKnownTypes gv rest s'
    | None => None
    end
  end.

(** A function of a [SchemeBuilder]: it updates the scheme and returns an
    error or nil, unless it panics ([None]). *)
Definition SchemeFunc : Type := Scheme -> option (Scheme * option Errors.error).

(** [SchemeBuilder.AddToScheme]: the functions run in order, up to the
    first one that returns an error. *)
Fixpoint AddToScheme (sb : list SchemeFunc) (s : Scheme)
  : option (Scheme * option Errors.error) :=
  match sb with
  | [] => Some (s, None)
  | f :: rest =>
    match f s with
    | None => None
    | Some (s', Some err) => Some (s', Some err)
    | Some (s', None) => AddToScheme rest s'
    end
  end.

End Runtime.

(** ** pkg/apis/ingressgroup/v1: register.go, the functions *)

Module Register.

Import Schema Runtime.

Definition pkgPath : string := "k8s.io/ingress-nginx/pkg/apis/ingressgroup/v1".

(** The types of [&IngressGroup{}] and [&IngressGroupList{}]. *)
Definition IngressGroupType : GoType :=
  {| PkgPath := pkgPath; TypeName := "IngressGroup" |}.

Definition IngressGroupListType : GoType :=
  {| PkgPath := pkgPath; TypeName := "IngressGroupList" |}.

Section Register.

(** [ingressgroup.GroupName], as in [V1.SchemeGroupVersion]. *)
Variable GroupName : string.

(** [metav1.AddToGroupVersion], which adds the meta types (watch events,
    list and delete options) of a group version; it returns nothing and
    panics ([None]) as [AddKnownTypeWithName] does. *)
Variable AddToGroupVersion : Scheme -> V1.GroupVersion -> option Scheme.

(** register.go, [Resource] (lines 25-27). *)
Definition Resource (resource : string) : GroupResource.t :=
  GroupVersionResource.GroupResource
    (WithResource (V1.SchemeGroupVersion GroupName) resource).

(** register.go, [Kind] (lines 30-32). *)
Definition Kind (kind : string) : GroupKind.t :=
  GroupVersionKind.GroupKind
    (WithKind (V1.SchemeGroupVersion GroupName) kind).

(** register.go, [addKnownTypes] (lines 36-46). *)
Definition addKnownTypes : SchemeFunc :=
  fun scheme =>
    match AddKnownTypes (V1.SchemeGroupVersion GroupName)
                        [IngressGroupType; IngressGroupListType] scheme with
    | None => None
    | Some scheme =>
      match AddToGroupVersion scheme (V1.SchemeGroupVersion GroupName) with
      | None => None
      | Some scheme => Some (scheme, None)
      end
    end.

(** register.go, [SchemeBuilder] and [AddToScheme] (lines 21-24). *)
Definition SchemeBuilder : list SchemeFunc := [addKnownTypes].

Definition AddToScheme : SchemeFunc := Runtime.AddToScheme SchemeBuilder.

End Register.

End Register.

(** ** Vocabulary of the further properties *)

Module Coverage.

Import Go Console World Main.

(** The error of the first client constructor that fails, in the order
    [createClients] calls them. *)
Definition firstClientError (X : Externals) (cfg : Rest.Config)
  : option Errors.error :=
  match kubeNewForConfig X cfg with
  | Some err => Some err
  | None => extensionsNewForConfig X cfg
  end.

(** The value the last assignment to [name] gives it, [default] when the
    command line has none. *)
Fixpoint lastValue (name : string) (args : list (string * string))
         (default : string) : string :=
  match args with
  | [] => default
  | (n, v) :: rest =>
    lastValue name rest (if String.eqb n name then v else default)
  end.

Definition defined (arg : string * string) : bool :=
  String.eqb (fst arg) "master" || String.eqb (fst arg) "kubeconfig".

(** A new process facing the cluster as [w] leaves it: the console is
    fresh, no channel is closed and no informer runs. *)
Definition restart (w : World) : World :=
  {| console := Console.empty; requests := requests w; cluster := cluster w;
     transport := transport w; closed := []; started := [] |}.


(** The world once [Run] has logged the version. *)
Definition afterVersion (X : Externals) (w : World) : World :=
  setConsole (log Info ("Version: " ++ versionInfo X) (console w)) w.

(** The world once [Run] is past a registration that reached the store:
    the definition was there, which is logged, or it has been stored. *)
Definition afterRegistration (X : Externals) (w : World) : World :=
  if stored (crdName (crd X)) (cluster w)
  then setConsole
         (log Info "redis cluster crd is already created."
              (console (afterVersion X w)))
         (sent (crd X) (cluster w) (afterVersion X w))
  else sent (crd X) (cluster w ++ [crd X]) (afterVersion X w).

(** The world with the factory of [Run] started on the nil channel. *)
Definition running (cfg : Rest.Config) (w : World) : World :=
  {| console := console w; requests := requests w; cluster := cluster w;
     transport := transport w; closed := closed w;
     started := started w
                ++ [(startedFactory (Rest.mkVersionedClientset cfg), Done TODO)] |}.

(** A service item as the schema wants it: an object whose [name] and
    [namespace] are strings. *)
Definition wellFormedItem (e : Json.json) : bool :=
  match e with
  | Json.JObj members =>
    match Json.lookup "name" members, Json.lookup "namespace" members with
    | Some (Json.JStr _), Some (Json.JStr _) => true
    | _, _ => false
    end
  | _ => false
  end.

(** What the published schema asks of an object: if its [spec] is an object
    with a [services] member, that member is an array of well-formed items. *)
Definition conforms (members : list (string * Json.json)) : bool :=
  match Json.lookup "spec" members with
  | Some (Json.JObj specMembers) =>
    match Json.lookup "services" specMembers with
    | Some (Json.JArr items) => forallb wellFormedItem items
    | Some _ => false
    | None => true
    end
  | _ => true
  end.

(** The server struct the flags of a command line give. *)
Definition parsed (args : list (string * string)) : OperatorManagerServer :=
  {| Master := lastValue "master" args "";
     Kubeconfig := lastValue "kubeconfig" args "" |}.

(** A stand-in for [metav1.AddToGroupVersion] that registers the watch
    event of the group version. *)
Definition addWatchEvent (s : Runtime.Scheme) (gv : V1.GroupVersion)
  : option Runtime.Scheme :=
  Runtime.AddKnownTypeWithName
    (Schema.WithKind gv "WatchEvent")
    {| Runtime.PkgPath := "k8s.io/apimachinery/pkg/apis/meta/v1";
       Runtime.TypeName := "WatchEvent" |} s.

End Coverage.

(** ** The process once the informers run *)

Module Process.

Import Go Console World.









End Process.

(** ** Sample environments with faults *)

Module Faults.

Import Go Console World Main.

Definition unreachable : Errors.error :=
  Errors.Errorf "invalid configuration: no configuration has been provided".

Definition refused : Errors.error :=
  Errors.Errorf "host must be a URL or a host:port pair".

(** No client configuration can be built. *)
Definition noConfig : Externals :=
  {| GroupName := "cr.example.io";
     versionInfo := "v0.0.0";
     versionRequested := false;
   usage := "Usage of operator-manager:";
   helpExitStatus := 2;
   defaultUserAgent :=
     "operator-manager/v0.0.0 (linux/amd64) kubernetes/$Format";
     BuildConfigFromFlags := fun _ _ => Err unreachable;
     kubeNewForConfig := fun _ => None;
     extensionsNewForConfig := fun _ => None;
     versionedNewForConfig := fun _ => None |}.

(** The extensions client refuses the config. *)
Definition noExtensionsClient : Externals :=
  {| GroupName := "cr.example.io";
     versionInfo := "v0.0.0";
     versionRequested := false;
   usage := "Usage of operator-manager:";
   helpExitStatus := 2;
   defaultUserAgent :=
     "operator-manager/v0.0.0 (linux/amd64) kubernetes/$Format";
     BuildConfigFromFlags := fun _ _ => Ok Sample.config;
     kubeNewForConfig := fun _ => None;
     extensionsNewForConfig := fun _ => Some refused;
     versionedNewForConfig := fun _ => None |}.

(** The client of the custom resource refuses the config. *)
Definition noVersionedClient : Externals :=
  {| GroupName := "cr.example.io";
     versionInfo := "v0.0.0";
     versionRequested := false;
   usage := "Usage of operator-manager:";
   helpExitStatus := 2;
   defaultUserAgent :=
     "operator-manager/v0.0.0 (linux/amd64) kubernetes/$Format";
     BuildConfigFromFlags := fun _ _ => Ok Sample.config;
     kubeNewForConfig := fun _ => None;
     extensionsNewForConfig := fun _ => None;
     versionedNewForConfig := fun _ => Some refused |}.


End Faults.

(** * Properties *)

Import Go Console World Main Vocabulary.

(** ** Running tasks *)

(** [Infof] always completes and touches the console only. *)
Lemma Infof_run (s : string) (w : World) :
  Infof s w = (setConsole (log Info s (console w)) w, Val tt).
Proof. reflexivity. Qed.

(** ** Start-up and schema registration *)

Section Startup.

Variable X : Externals.

(** [Run] from the point where [CreateIngressGroupCRD] has answered [err]
    in world [w2]. *)
Lemma Run_after_registration s w w1 clients w2 err :
  createClients X s (fst (Infof ("Version: " ++ versionInfo X) w))
    = (w1, Val (Ok clients)) ->
  CreateIngressGroupCRD X (snd (fst clients)) w1 = (w2, Val err) ->
  Run X s w =
  (failed <-
     match err with
     | Some err =>
       if Errors.IsAlreadyExists err
       then Infof "redis cluster crd is already created." ;; ret None
       else FprintStderr (Errors.Message err) ;; ret (Some err)
     | None => ret None
     end ;;
   match failed with
   | Some err => ret (Some err)
   | None =>
     versionedClient <-
       match versionedNewForConfig X (snd clients) with
       | Some err => Fatalf (Errors.Message err)
       | None => ret (Rest.mkVersionedClientset (snd clients))
       end ;;
     Start (startedFactory versionedClient) (Done TODO) ;;
     recv (Done TODO) ;;
     ret (Some (Errors.Errorf "unreachable"))
   end)%monad w2.
Proof.
  intros Hc Hr. destruct clients as [[kube ext] cfg]. cbn [fst snd] in *.
  unfold Run. cbn [bind ret Monad_Task]. unfold taskBind at 1.
  rewrite Infof_run in *. cbn [fst] in Hc.
  unfold taskBind at 1. rewrite Hc.
  unfold taskBind at 1. rewrite Hr.
  reflexivity.
Qed.

(** The world and result of [Run] when registration answered an error that
    is not AlreadyExists. *)
Lemma Run_registration_failed s w w1 clients w2 err :
  createClients X s (fst (Infof ("Version: " ++ versionInfo X) w))
    = (w1, Val (Ok clients)) ->
  CreateIngressGroupCRD X (snd (fst clients)) w1 = (w2, Val (Some err)) ->
  Errors.IsAlreadyExists err = false ->
  Run X s w
  = (setConsole (write (Errors.Message err) (console w2)) w2, Val (Some err)).
Proof.
  intros Hc Hr Hae. rewrite (Run_after_registration _ _ _ _ _ _ Hc Hr).
  rewrite Hae. reflexivity.
Qed.

(** The world [Run] continues in when registration answered AlreadyExists. *)
Lemma Run_registration_exists s w w1 clients w2 err :
  createClients X s (fst (Infof ("Version: " ++ versionInfo X) w))
    = (w1, Val (Ok clients)) ->
  CreateIngressGroupCRD X (snd (fst clients)) w1 = (w2, Val (Some err)) ->
  Errors.IsAlreadyExists err = true ->
  Run X s w
  = (versionedClient <-
       match versionedNewForConfig X (snd clients) with
       | Some err => Fatalf (Errors.Message err)
       | None => ret (Rest.mkVersionedClientset (snd clients))
       end ;;
     Start (startedFactory versionedClient) (Done TODO) ;;
     recv (Done TODO) ;;
     ret (Some (Errors.Errorf "unreachable")))%monad
      (setConsole
         (log Info "redis cluster crd is already created." (console w2)) w2).
Proof.
  intros Hc Hr Hae. rewrite (Run_after_registration _ _ _ _ _ _ Hc Hr).
  rewrite Hae. reflexivity.
Qed.

(** C1. If schema registration returns an AlreadyExists error, start-up
    treats it as success: the condition is logged, nothing is reported on
    stderr, [Run] does not return and goes on to start the informers. If
    registration returns any other error, [Run] writes it to stderr and
    returns it, and [main] writes it again and leaves with exit status 1. *)
Theorem registration_error_handling s w w1 clients w2 err :
  createClients X s (fst (Infof ("Version: " ++ versionInfo X) w))
    = (w1, Val (Ok clients)) ->
  CreateIngressGroupCRD X (snd (fst clients)) w1 = (w2, Val (Some err)) ->
  (Errors.IsAlreadyExists err = true ->
   In (Info, "redis cluster crd is already created.")
      (klog (console (fst (Run X s w))))
   /\ stderr (console (fst (Run X s w))) = stderr (console w2)
   /\ (forall r, snd (Run X s w) <> Val r)
   /\ (versionedNewForConfig X (snd clients) = None ->
       snd (Run X s w) = Blocked
       /\ started (fst (Run X s w))
          = started w2
            ++ [(startedFactory (Rest.mkVersionedClientset (snd clients)),
                 Done TODO)]))
  /\
  (Errors.IsAlreadyExists err = false ->
   Run X s w
   = (setConsole (write (Errors.Message err) (console w2)) w2, Val (Some err))
   /\ forall args,
       Flag.Parse args (fst defineFlags) (snd defineFlags) = Ok s ->
       versionRequested X = false ->
       snd (main X args w) = Exited 1
       /\ stderr (console (fst (main X args w)))
          = stderr (console w2)
            ++ [Errors.Message err; (Errors.Message err ++ newline)%string]).
Proof.
  intros Hc Hr. split; intros Hae.
  - rewrite (Run_registration_exists _ _ _ _ _ _ Hc Hr Hae).
    cbn [bind ret Monad_Task]. unfold taskBind at 1.
    destruct (versionedNewForConfig X (snd clients)) as [e |]; cbn.
    + repeat split.
      * apply in_or_app. left. apply in_or_app. right. left. reflexivity.
      * discriminate.
      * discriminate.
      * discriminate.
    + repeat split.
      * apply in_or_app. right. left. reflexivity.
      * discriminate.
  - pose proof (Run_registration_failed _ _ _ _ _ _ Hc Hr Hae) as HR.
    split; [exact HR |].
    intros args Hp Hv.
    assert (Hm : main X args w
                 = (setConsole
                      (write (Errors.Message err ++ newline)
                             (write (Errors.Message err) (console w2))) w2,
                    Exited 1%Z)).
    { unfold main. rewrite Hp, Hv.
      cbn [bind ret Monad_Task]. unfold taskBind at 1. cbn [taskRet].
      unfold taskBind at 1. rewrite HR. reflexivity. }
    rewrite Hm. cbn. rewrite <- app_assoc. split; reflexivity.
Qed.

End Startup.

Lemma registration_error_handling_witness :
  snd (Run Sample.X NewOMServer Sample.registered) = Blocked
  /\ snd (main Sample.X [] Sample.refusing) = Exited 1.
Proof.
  split.
  - edestruct (registration_error_handling Sample.X NewOMServer Sample.registered)
      as [H _]; [cbv; reflexivity | cbv; reflexivity |].
    destruct (H eq_refl) as (_ & _ & _ & Hb).
    apply Hb. reflexivity.
  - edestruct (registration_error_handling Sample.X NewOMServer Sample.refusing)
      as [_ H]; [cbv; reflexivity | cbv; reflexivity |].
    destruct (H eq_refl) as [_ Hm].
    apply (Hm []); reflexivity.
Defined.

(** ** Blocking on the stop channel *)

Section Blocking.

Variable X : Externals.



(** Every registration call returns. *)
Lemma CreateIngressGroupCRD_returns ext w :
  exists w2 err, CreateIngressGroupCRD X ext w = (w2, Val err).
Proof.
  unfold CreateIngressGroupCRD, Create. cbn. unfold taskBind.
  destruct (transport w) as [| [e |] rest].
  - destruct (stored _ _); eexists; eexists; reflexivity.
  - eexists; eexists; reflexivity.
  - destruct (stored _ _); eexists; eexists; reflexivity.
Qed.

(** What [createClients] can come to. *)
Lemma createClients_outcome s w :
  (exists err, BuildConfigFromFlags X (Master s) (Kubeconfig s) = Err err
               /\ createClients X s w = (w, Val (Err err)))
  \/ (exists clients, createClients X s w = (w, Val (Ok clients)))
  \/ (exists w', createClients X s w = (w', Exited 255)).
Proof.
  unfold createClients.
  destruct (BuildConfigFromFlags X (Master s) (Kubeconfig s)) as [cfg | e].
  - right. cbn. unfold taskBind.
    destruct (kubeNewForConfig X _); cbn.
    + right. eexists. reflexivity.
    + destruct (extensionsNewForConfig X _); cbn.
      * right. eexists. reflexivity.
      * left. eexists. reflexivity.
  - left. exists e. split; reflexivity.
Qed.

(** The return values of [Run] all come from its start-up returns; the
    alternatives are the fatal exit and the parked receive. *)
Lemma Run_outcome s w :
  (exists err, snd (Run X s w) = Val (Some err) /\ startupError X s w err)
  \/ snd (Run X s w) = Exited 255
  \/ snd (Run X s w) = Blocked.
Proof.
  destruct (createClients_outcome
              s (fst (Infof ("Version: " ++ versionInfo X) w)))
    as [(err & Hb & Hc) | [(clients & Hc) | (w' & Hc)]].
  - left. exists err. split; [| left; exact Hb].
    unfold Run. cbn [bind ret Monad_Task]. unfold taskBind at 1.
    rewrite Infof_run in *. cbn [fst] in Hc. unfold taskBind at 1.
    rewrite Hc. reflexivity.
  - destruct (CreateIngressGroupCRD_returns
                (snd (fst clients))
                (fst (Infof ("Version: " ++ versionInfo X) w)))
      as (w2 & err & Hr).
    rewrite (Run_after_registration X _ _ _ _ _ _ Hc Hr).
    destruct err as [err |].
    + destruct (Errors.IsAlreadyExists err) eqn:Hae.
      * right. cbn. unfold taskBind.
        destruct (versionedNewForConfig X (snd clients)); cbn; auto.
      * left. exists err. split; [reflexivity |].
        right. exists (fst (Infof ("Version: " ++ versionInfo X) w)), clients, w2.
        auto.
    + right. cbn. unfold taskBind.
      destruct (versionedNewForConfig X (snd clients)); cbn; auto.
  - right. left.
    unfold Run. cbn [bind ret Monad_Task]. unfold taskBind at 1.
    rewrite Infof_run in *. cbn [fst] in Hc. unfold taskBind at 1.
    rewrite Hc. reflexivity.
Qed.

End Blocking.

(** ** The informers [Run] starts *)

Section Informer.

Variable X : Externals.

Lemma createClients_started s w :
  started (fst (createClients X s w)) = started w.
Proof.
  unfold createClients.
  destruct (BuildConfigFromFlags X (Master s) (Kubeconfig s)) as [cfg | e];
    [| reflexivity].
  cbn [bind ret Monad_Task]. unfold taskBind at 1.
  destruct (kubeNewForConfig X _); [reflexivity |].
  cbn [taskRet]. unfold taskBind at 1.
  destruct (extensionsNewForConfig X _); reflexivity.
Qed.

Lemma CreateIngressGroupCRD_started ext w :
  started (fst (CreateIngressGroupCRD X ext w)) = started w.
Proof.
  unfold CreateIngressGroupCRD, Create. cbn [bind ret Monad_Task].
  unfold taskBind.
  destruct (transport w) as [| [e |] rest];
    try destruct (stored _ _); reflexivity.
Qed.

(** [Run] starts at most one factory, the one it built, on the stop channel
    of [context.TODO()]. *)
Lemma Run_started s w :
  started (fst (Run X s w)) = started w
  \/ exists versionedClient,
      started (fst (Run X s w))
      = started w ++ [(startedFactory versionedClient, Done TODO)].
Proof.
  pose (w0 := setConsole (log Info ("Version: " ++ versionInfo X) (console w)) w).
  assert (H0 : started w0 = started w) by reflexivity.
  pose proof (createClients_started s w0) as Hcs.
  destruct (createClients_outcome X s w0)
    as [(err & Hb & Hc) | [(clients & Hc) | (w' & Hc)]].
  - left. unfold Run. cbn [bind ret Monad_Task]. unfold taskBind at 1.
    rewrite Infof_run. fold w0. unfold taskBind at 1. rewrite Hc.
    exact H0.
  - destruct (CreateIngressGroupCRD_returns X (snd (fst clients)) w0)
      as (w2 & err & Hr).
    pose proof (CreateIngressGroupCRD_started (snd (fst clients)) w0) as Hrs.
    rewrite Hr in Hrs. cbn [fst] in Hrs.
    rewrite (Run_after_registration X _ _ _ _ _ _ Hc Hr).
    cbn [bind ret Monad_Task]. unfold taskBind at 1.
    destruct err as [err |].
    + destruct (Errors.IsAlreadyExists err).
      * unfold taskBind at 1. rewrite Infof_run. cbn [taskRet].
        unfold taskBind at 1.
        destruct (versionedNewForConfig X (snd clients)).
        -- left. cbn. congruence.
        -- right. eexists. cbn. rewrite Hrs, H0. reflexivity.
      * left. cbn. congruence.
    + cbn [taskRet]. unfold taskBind at 1.
      destruct (versionedNewForConfig X (snd clients)).
      * left. cbn. congruence.
      * right. eexists. cbn. rewrite Hrs, H0. reflexivity.
  - left. unfold Run. cbn [bind ret Monad_Task]. unfold taskBind at 1.
    rewrite Infof_run. fold w0. unfold taskBind at 1.
    rewrite Hc in *. cbn [fst] in Hcs. cbn [fst]. congruence.
Qed.

(** The timer of a factory fires at some moment exactly when its period is
    not zero. *)
Lemma resync_fires_iff c d :
  (exists t, Informers.resyncFiresAt (Informers.NewSharedInformerFactory c d) t
             = true)
  <-> d <> 0%Z.
Proof.
  unfold Informers.resyncFiresAt. cbn [Informers.defaultResync
    Informers.NewSharedInformerFactory].
  split.
  - intros [t Ht] Hd. subst d. cbn in Ht. discriminate.
  - intros Hd. exists (Z.abs d).
    destruct (Z.eqb_spec d 0) as [E | _]; [contradiction |].
    apply andb_true_intro. split.
    + apply Z.ltb_lt. lia.
    + apply Z.eqb_eq. apply Z.mod_divide; [exact Hd |].
      destruct (Z.abs_spec d) as [[_ E] | [_ E]]; rewrite E.
      * exists 1%Z. lia.
      * exists (-1)%Z. lia.
Qed.

(** C2. The factory [Run] starts carries the resync period [Run] gave it,
    and that period is zero: its resync timer never fires, so at every
    moment the only possible trigger is a live watch event. The period is
    the constructor's argument, and a factory resyncs at some moment exactly
    when that argument is not zero. *)
Theorem resync_period_decides s w f stopCh :
  In (f, stopCh) (started (fst (Run X s w))) ->
  ~ In (f, stopCh) (started w) ->
  Informers.defaultResync f = 0%Z
  /\ (forall t, Informers.resyncFiresAt f t = false)
  /\ (forall t ev,
        Informers.triggersAt f t ev
        = if ev then [Informers.LiveEvent] else [])
  /\ (forall c d,
        Informers.defaultResync (Informers.NewSharedInformerFactory c d) = d
        /\ ((exists t,
               Informers.resyncFiresAt
                 (Informers.NewSharedInformerFactory c d) t = true)
            <-> d <> 0%Z)).
Proof.
  intros Hin Hnew.
  assert (Hf : exists vc, f = startedFactory vc).
  { destruct (Run_started s w) as [E | [vc E]]; rewrite E in Hin.
    - contradiction.
    - apply in_app_or in Hin. destruct Hin as [Hin | [Hin | []]].
      + contradiction.
      + exists vc. inversion Hin. reflexivity. }
  destruct Hf as [vc ->].
  assert (Hz : Informers.defaultResync (startedFactory vc) = 0%Z)
    by reflexivity.
  assert (Hn : forall t, Informers.resyncFiresAt (startedFactory vc) t = false).
  { intros t. unfold Informers.resyncFiresAt. rewrite Hz. reflexivity. }
  split; [exact Hz |]. split; [exact Hn |]. split.
  - intros t ev. unfold Informers.triggersAt. rewrite Hn.
    destruct ev; reflexivity.
  - intros c d. split; [reflexivity | apply resync_fires_iff].
Qed.

End Informer.

Lemma resync_period_decides_witness :
  forallb (fun fc => Z.eqb (Informers.defaultResync (fst fc)) 0)
          (started (fst (Run Sample.X NewOMServer Sample.fresh))) = true
  /\ Informers.defaultResync
       (startedFactory
          (Rest.mkVersionedClientset
             (Rest.AddUserAgent
                (defaultUserAgent Sample.X)
                (Rest.setBurst 100 (Rest.setQPS 100 Sample.config))
                "operator-manager"))) = 0%Z.
Proof.
  split; [reflexivity |].
  refine (proj1 (resync_period_decides Sample.X NewOMServer Sample.fresh
                   _ (Done TODO) _ _)).
  - cbn. left. reflexivity.
  - cbn. intros [].
Defined.

(** ** The event handlers *)

Section Handlers.

Variable X : Externals.

Lemma deliver_add g c :
  Cache.deliver ingGroupEventHandler
                (Cache.addNotification (ptrIngressGroup (Some g))) c
  = (log Warning ("addIngGroup: " ++ identity g) c, Val tt).
Proof. reflexivity. Qed.

Lemma deliver_delete g c :
  Cache.deliver ingGroupEventHandler
                (Cache.deleteNotification (ptrIngressGroup (Some g))) c
  = (log Warning ("delIngGroup: " ++ identity g) c, Val tt).
Proof. reflexivity. Qed.

Lemma append_assoc (a b c : string) : ((a ++ b) ++ c = a ++ (b ++ c))%string.
Proof. induction a as [| x a IH]; cbn; [reflexivity | now rewrite IH]. Qed.

Lemma deliver_update old cur c :
  Cache.deliver ingGroupEventHandler
                (Cache.updateNotification (ptrIngressGroup (Some old))
                                          (ptrIngressGroup (Some cur))) c
  = (log Warning ("oldIngGroup: " ++ identity old
                  ++ " ; curIngGroup: " ++ identity cur) c, Val tt).
Proof.
  cbn. unfold log, identity. do 3 f_equal.
  rewrite !append_assoc. reflexivity.
Qed.

(** C8. The factory [Run] starts has exactly one handler set on its
    IngressGroup informer, with all three callbacks present. The Update
    callback takes the prior and the current object and reports both; the
    Add and the Delete callback each take one object and report it. *)
Theorem handlers_registered s w f stopCh :
  In (f, stopCh) (started (fst (Run X s w))) ->
  ~ In (f, stopCh) (started w) ->
  Informers.ingressGroupHandlers f = [ingGroupEventHandler]
  /\ Cache.AddFunc ingGroupEventHandler = Some addIngGroupFunc
  /\ Cache.UpdateFunc ingGroupEventHandler = Some updateIngGroupFunc
  /\ Cache.DeleteFunc ingGroupEventHandler = Some delIngGroupFunc
  /\ (forall old cur c,
        Cache.deliver ingGroupEventHandler
          (Cache.updateNotification (ptrIngressGroup (Some old))
                                    (ptrIngressGroup (Some cur))) c
        = (log Warning ("oldIngGroup: " ++ identity old
                        ++ " ; curIngGroup: " ++ identity cur) c, Val tt))
  /\ (forall g c,
        Cache.deliver ingGroupEventHandler
          (Cache.addNotification (ptrIngressGroup (Some g))) c
        = (log Warning ("addIngGroup: " ++ identity g) c, Val tt))
  /\ (forall g c,
        Cache.deliver ingGroupEventHandler
          (Cache.deleteNotification (ptrIngressGroup (Some g))) c
        = (log Warning ("delIngGroup: " ++ identity g) c, Val tt)).
Proof.
  intros Hin Hnew.
  assert (Hf : exists vc, f = startedFactory vc).
  { destruct (Run_started X s w) as [E | [vc E]]; rewrite E in Hin.
    - contradiction.
    - apply in_app_or in Hin. destruct Hin as [Hin | [Hin | []]].
      + contradiction.
      + exists vc. inversion Hin. reflexivity. }
  destruct Hf as [vc ->].
  repeat split; try reflexivity.
  - apply deliver_update.
Qed.

(** C10. A payload whose dynamic type is not [*v1.IngressGroup] makes each
    handler panic before it logs anything: the Add and the Update callback in
    their unchecked type assertion (Update on either of its two arguments),
    the Delete callback when it reads a field through the nil pointer its
    checked assertion produced. The same holds through the registered
    handler set. *)
Theorem handlers_panic_on_foreign_payload (obj : iface) (c : Console) :
  isIngressGroupPtr obj = false ->
  addIngGroupFunc obj c = (c, Panicked TypeAssertionFailed)
  /\ (forall other,
        updateIngGroupFunc obj other c = (c, Panicked TypeAssertionFailed)
        /\ updateIngGroupFunc other obj c = (c, Panicked TypeAssertionFailed))
  /\ assertIngressGroupOk obj = (None, false)
  /\ delIngGroupFunc obj c = (c, Panicked NilPointerDereference)
  /\ Cache.deliver ingGroupEventHandler (Cache.addNotification obj) c
     = (c, Panicked TypeAssertionFailed)
  /\ Cache.deliver ingGroupEventHandler (Cache.deleteNotification obj) c
     = (c, Panicked NilPointerDereference)
  /\ (forall other,
        Cache.deliver ingGroupEventHandler
                      (Cache.updateNotification other obj) c
        = (c, Panicked TypeAssertionFailed)).
Proof.
  intros Hty.
  assert (Hupd : forall other,
             updateIngGroupFunc other obj c = (c, Panicked TypeAssertionFailed)).
  { intros other. destruct obj; try discriminate;
      destruct other; reflexivity. }
  destruct obj; try discriminate; repeat split; try reflexivity;
    try apply Hupd.
Qed.

End Handlers.

Lemma handlers_registered_witness :
  Cache.deliver ingGroupEventHandler
    (Cache.updateNotification (ptrIngressGroup (Some Sample.g1))
                              (ptrIngressGroup (Some Sample.g1')))
    Console.empty
  = (log Warning "oldIngGroup: default/g1 ; curIngGroup: default/g1"
         Console.empty, Val tt).
Proof.
  refine (proj1 (proj2 (proj2 (proj2 (proj2
            (handlers_registered Sample.X NewOMServer Sample.fresh
               _ (Done TODO) _ _)))))
            Sample.g1 Sample.g1' Console.empty).
  - cbn. left. reflexivity.
  - cbn. intros [].
Defined.

Lemma handlers_panic_on_foreign_payload_witness :
  delIngGroupFunc
    (deletedFinalStateUnknown "default/g2" (ptrIngressGroup (Some Sample.g1)))
    Console.empty
  = (Console.empty, Panicked NilPointerDereference).
Proof.
  apply (handlers_panic_on_foreign_payload
           (deletedFinalStateUnknown "default/g2"
                                     (ptrIngressGroup (Some Sample.g1)))
           Console.empty).
  reflexivity.
Defined.

(** ** The process after start-up *)

Section AfterStartup.

Variable X : Externals.





End AfterStartup.



(** ** The definition submitted at registration *)

Section Registration.

Variable X : Externals.

(** [CreateIngressGroupCRD] on a call that reaches the store. *)
Lemma CreateIngressGroupCRD_reaches ext w :
  hd None (transport w) = None ->
  CreateIngressGroupCRD X ext w
  = if stored (crdName (crd X)) (cluster w)
    then (sent (crd X) (cluster w) w,
          Val (Some (Errors.NewAlreadyExists
                       "customresourcedefinitions.apiextensions.k8s.io"
                       (crdName (crd X)))))
    else (sent (crd X) (cluster w ++ [crd X]) w, Val None).
Proof.
  intros Ht. unfold CreateIngressGroupCRD, Create.
  cbn [bind ret Monad_Task]. unfold taskBind.
  destruct (transport w) as [| [e |] rest]; cbn in Ht; try discriminate;
    destruct (stored _ _); reflexivity.
Qed.

Lemma stored_app name l l' :
  stored name (l ++ l') = stored name l || stored name l'.
Proof. unfold stored. apply existsb_app. Qed.

Lemma stored_false_not_in name l :
  stored name l = false -> ~ In name (map crdName l).
Proof.
  unfold stored. intros H Hin. apply in_map_iff in Hin.
  destruct Hin as (c & Hc & Hin).
  assert (E : existsb (fun c0 => String.eqb (crdName c0) name) l = true).
  { apply existsb_exists. exists c. split; [exact Hin |].
    rewrite Hc. apply String.eqb_refl. }
  congruence.
Qed.

Lemma NoDup_snoc {A : Type} (l : list A) (a : A) :
  NoDup l -> ~ In a l -> NoDup (l ++ [a]).
Proof.
  induction l as [| x l IH]; intros Hnd Hn; cbn.
  - constructor; [intros [] | constructor].
  - inversion Hnd as [| y l' Hx Hl]; subst. constructor.
    + intros Hin. apply in_app_or in Hin.
      destruct Hin as [Hin | [E | []]]; [contradiction |].
      apply Hn. left. symmetry. exact E.
    + apply IH; [exact Hl |]. intros H. apply Hn. right. exact H.
Qed.

(** C4. The definition [CreateIngressGroupCRD] submits carries the group of
    [SchemeGroupVersion], the single version "v1", served and stored, the
    kinds IngressGroup and IngressGroupList, the plural "ingressgroups", the
    singular "ingressgroup", the short name "ig", and the namespaced scope. *)
Theorem crd_identity_names_scope ext w :
  requests (fst (CreateIngressGroupCRD X ext w)) = requests w ++ [crd X]
  /\ V1beta1.Group (V1beta1.Spec (crd X))
     = V1.Group (V1.SchemeGroupVersion (GroupName X))
  /\ V1.Version (V1.SchemeGroupVersion (GroupName X)) = "v1"
  /\ V1beta1.Versions (V1beta1.Spec (crd X))
     = [ {| V1beta1.Name := "v1"; V1beta1.Served := true;
            V1beta1.Storage := true |} ]
  /\ V1beta1.Kind (V1beta1.Names (V1beta1.Spec (crd X))) = "IngressGroup"
  /\ V1beta1.ListKind (V1beta1.Names (V1beta1.Spec (crd X)))
     = "IngressGroupList"
  /\ V1beta1.Plural (V1beta1.Names (V1beta1.Spec (crd X))) = "ingressgroups"
  /\ V1beta1.Singular (V1beta1.Names (V1beta1.Spec (crd X))) = "ingressgroup"
  /\ V1beta1.ShortNames (V1beta1.Names (V1beta1.Spec (crd X))) = ["ig"]
  /\ V1beta1.Scope (V1beta1.Spec (crd X)) = V1beta1.NamespaceScoped.
Proof.
  split.
  - unfold CreateIngressGroupCRD, Create. cbn [bind ret Monad_Task].
    unfold taskBind.
    destruct (transport w) as [| [e |] rest];
      try destruct (stored _ _); reflexivity.
  - repeat split.
Qed.

(** C3. Two registrations that both reach the store submit the same
    definition, named "ingressgroups." followed by the group. The second one
    answers AlreadyExists and leaves the store as the first one left it: the
    definition is stored, it occurs as often as after the first call, and a
    store without duplicate names stays without. *)
Theorem registration_idempotent ext ext' w w1 r1 w2 r2 :
  hd None (transport w) = None ->
  hd None (tl (transport w)) = None ->
  CreateIngressGroupCRD X ext w = (w1, Val r1) ->
  CreateIngressGroupCRD X ext' w1 = (w2, Val r2) ->
  requests w2 = requests w ++ [crd X; crd X]
  /\ crdName (crd X) = ("ingressgroups." ++ GroupName X)%string
  /\ (exists e, r2 = Some e /\ Errors.IsAlreadyExists e = true)
  /\ cluster w2 = cluster w1
  /\ stored (crdName (crd X)) (cluster w2) = true
  /\ occurrences (crdName (crd X)) (cluster w2)
     = occurrences (crdName (crd X)) (cluster w1)
  /\ (NoDup (map crdName (cluster w)) -> NoDup (map crdName (cluster w2))).
Proof.
  intros Ht Ht' H1 H2.
  rewrite (CreateIngressGroupCRD_reaches ext w Ht) in H1.
  assert (Hs1 : stored (crdName (crd X)) (cluster w1) = true
                /\ transport w1 = tl (transport w)
                /\ requests w1 = requests w ++ [crd X]
                /\ (NoDup (map crdName (cluster w))
                    -> NoDup (map crdName (cluster w1)))).
  { destruct (stored (crdName (crd X)) (cluster w)) eqn:E;
      inversion H1; subst w1 r1; cbn [sent cluster transport requests].
    - auto.
    - repeat split; auto.
      + rewrite stored_app, E. cbn. rewrite String.eqb_refl. reflexivity.
      + intros Hnd. rewrite map_app. cbn [map].
        apply NoDup_snoc; [exact Hnd | apply stored_false_not_in; exact E]. }
  destruct Hs1 as (Hst & Htr & Hrq & Hnd).
  rewrite CreateIngressGroupCRD_reaches in H2 by (rewrite Htr; exact Ht').
  rewrite Hst in H2. inversion H2; subst w2 r2.
  cbn [sent cluster transport requests].
  repeat split; auto.
  - rewrite Hrq, <- app_assoc. reflexivity.
  - eexists. split; reflexivity.
Qed.

End Registration.

Lemma registration_idempotent_witness :
  length (cluster (fst (CreateIngressGroupCRD Sample.X
            (Rest.mkExtensionsClientset Sample.config)
            (fst (CreateIngressGroupCRD Sample.X
                    (Rest.mkExtensionsClientset Sample.config)
                    Sample.fresh))))) = 1
  /\ exists e,
      snd (CreateIngressGroupCRD Sample.X
             (Rest.mkExtensionsClientset Sample.config)
             (fst (CreateIngressGroupCRD Sample.X
                     (Rest.mkExtensionsClientset Sample.config)
                     Sample.fresh))) = Val (Some e)
      /\ Errors.IsAlreadyExists e = true.
Proof.
  split; [reflexivity |].
  edestruct (registration_idempotent Sample.X
               (Rest.mkExtensionsClientset Sample.config)
               (Rest.mkExtensionsClientset Sample.config)
               Sample.fresh)
    as (_ & _ & (e & Hr & Hae) & _);
    [reflexivity | reflexivity | cbv; reflexivity | cbv; reflexivity |].
  exists e. split; [| exact Hae].
  inversion Hr. reflexivity.
Defined.

(** ** Structural validation of the services *)

Section Schema.

Variable X : Externals.

Lemma indexFrom_nth {A : Type} (l : list A) : forall n i e,
  nth_error l i = Some e -> In ((n + i)%nat, e) (Validation.indexFrom n l).
Proof.
  induction l as [| x l IH]; intros n i e H.
  - destruct i; discriminate.
  - destruct i as [| i]; cbn in *.
    + inversion H. left. rewrite Nat.add_0_r. reflexivity.
    + right. rewrite <- Nat.add_succ_comm. apply IH. exact H.
Qed.

Lemma missing_reports path members required r :
  In r required ->
  Json.lookup r members = None ->
  In (Validation.child path r ++ ": required")%string
     (Validation.missing path members required).
Proof.
  intros Hin Hl. unfold Validation.missing. apply in_flat_map.
  exists r. split; [exact Hin |]. rewrite Hl. left. reflexivity.
Qed.

(** The violations the item schema finds in an object that lacks a required
    member. *)
Lemma item_violation path members r :
  In r ["name"; "namespace"] ->
  Json.lookup r members = None ->
  In (Validation.child path r ++ ": required")%string
     (Validation.validate
        (V1beta1.mkJSONSchemaProps "object" ["name"; "namespace"]
           [("name", stringSchema); ("namespace", stringSchema)] None)
        path (Json.JObj members)).
Proof.
  intros Hin Hl. cbn [Validation.validate].
  apply in_or_app. right. apply in_or_app. left.
  apply missing_reports; assumption.
Qed.

(** C5. The schema published with the definition declares [spec.services]
    as an array whose elements are objects with the string properties [name]
    and [namespace], both required. An object whose [spec.services] holds,
    at index [i], an item without [name] or without [namespace] is not
    accepted, and the violation names the missing member of element [i]. *)
Theorem schema_requires_name_and_namespace obj specPayload items i members :
  Json.field "spec" obj = Some specPayload ->
  Json.field "services" specPayload = Some (Json.JArr items) ->
  nth_error items i = Some (Json.JObj members) ->
  Json.lookup "name" members = None \/ Json.lookup "namespace" members = None ->
  (exists services item,
      Validation.servicesSchema (crd X) = Some services
      /\ V1beta1.Type_ services = "array"
      /\ Validation.serviceItemSchema (crd X) = Some item
      /\ V1beta1.Type_ item = "object"
      /\ V1beta1.Required item = ["name"; "namespace"]
      /\ Validation.propertyType "name" item = Some "string"
      /\ Validation.propertyType "namespace" item = Some "string")
  /\ Validation.accepts (crd X) obj = false
  /\ (Json.lookup "name" members = None ->
      In (Validation.child (Validation.element "spec.services" i) "name"
          ++ ": required")%string
         (Validation.violations (crd X) obj))
  /\ (Json.lookup "namespace" members = None ->
      In (Validation.child (Validation.element "spec.services" i) "namespace"
          ++ ": required")%string
         (Validation.violations (crd X) obj)).
Proof.
  intros Hspec Hsvc Hnth Hmiss.
  destruct obj as [| | | | | top]; try discriminate.
  destruct specPayload as [| | | | | sm]; try discriminate.
  cbn [Json.field] in Hspec, Hsvc.
  assert (Hv : forall r,
             In r ["name"; "namespace"] ->
             Json.lookup r members = None ->
             In (Validation.child (Validation.element "spec.services" i) r
                 ++ ": required")%string
                (Validation.violations (crd X) (Json.JObj top))).
  { intros r Hr Hl. unfold Validation.violations.
    cbn [crd V1beta1.Validation V1beta1.Spec V1beta1.OpenAPIV3Schema].
    cbn [Validation.validate]. rewrite Hspec.
    cbn [Validation.child String.eqb]. rewrite Hsvc.
    cbn [Validation.validate Validation.child String.eqb Ascii.eqb
         Bool.eqb append].
    apply in_or_app. right. apply in_or_app. right.
    apply in_or_app. left.
    apply in_or_app. right. apply in_or_app. right.
    apply in_or_app. left.
    apply in_or_app. right.
    apply in_flat_map. exists (i, Json.JObj members). split.
    - apply (indexFrom_nth items 0 i). exact Hnth.
    - cbn [fst snd]. apply item_violation; assumption. }
  split.
  - exists (V1beta1.mkJSONSchemaProps "array" [] []
              (Some (V1beta1.mkJSONSchemaProps "object" ["name"; "namespace"]
                       [("name", stringSchema); ("namespace", stringSchema)]
                       None))),
           (V1beta1.mkJSONSchemaProps "object" ["name"; "namespace"]
              [("name", stringSchema); ("namespace", stringSchema)] None).
    repeat split.
  - split.
    + unfold Validation.accepts.
      destruct (Validation.violations (crd X) (Json.JObj top)) eqn:E;
        [| reflexivity].
      destruct Hmiss as [Hm | Hm].
      * destruct (Hv "name" (or_introl eq_refl) Hm).
      * destruct (Hv "namespace" (or_intror (or_introl eq_refl)) Hm).
    + split; intros Hm; apply Hv; cbn; auto.
Qed.

End Schema.

Lemma schema_requires_name_and_namespace_witness :
  Validation.accepts (crd Sample.X) Sample.incomplete = false
  /\ In "spec.services[2].namespace: required"
        (Validation.violations (crd Sample.X) Sample.incomplete).
Proof.
  edestruct (schema_requires_name_and_namespace Sample.X Sample.incomplete)
    as (_ & Ha & _ & Hn);
    [reflexivity | reflexivity | | | ].
  - instantiate (2 := 2%nat). reflexivity.
  - right. reflexivity.
  - split; [exact Ha | exact (Hn eq_refl)].
Defined.

(** The schema accepts what the encoder writes for a group with services. *)
Lemma schema_accepts_encoded_group :
  Validation.accepts
    (crd Sample.X)
    (V1.marshalIngressGroup Sample.encodeTypeMeta Sample.encodeObjectMeta
                            Sample.g1') = true.
Proof. reflexivity. Qed.

(** ** The wire shape of an IngressGroup *)

Section Wire.

Variable encodeTypeMeta : Metav1.TypeMeta -> list (string * Json.json).
Variable encodeObjectMeta : Metav1.ObjectMeta -> Json.json.

Lemma marshalServiceItem_encodes it :
  encodesItem it (V1.marshalServiceItem it).
Proof.
  exists [("name", Json.JStr (V1.Name it));
          ("namespace", Json.JStr (V1.Namespace it))].
  repeat split.
Qed.

Lemma marshal_items services :
  Forall2 encodesItem services (map V1.marshalServiceItem services).
Proof.
  induction services as [| it services IH]; cbn; constructor.
  - apply marshalServiceItem_encodes.
  - exact IH.
Qed.

(** C6, as amended. An IngressGroup is written as an object made of the
    inline type metadata, then [metadata], then [spec]. The [spec] object
    has no member when the group has no services; otherwise its only member
    is [services], an array with one object per service item, each with
    exactly the members [name] and [namespace]. *)
Theorem wire_shape (g : V1.IngressGroup) :
  exists specMembers,
    V1.marshalIngressGroup encodeTypeMeta encodeObjectMeta g
    = Json.JObj (encodeTypeMeta (V1.TypeMeta g)
                 ++ [("metadata", encodeObjectMeta (V1.ObjectMeta g));
                     ("spec", Json.JObj specMembers)])
    /\ (V1.Services (V1.Spec g) = [] -> specMembers = [])
    /\ (V1.Services (V1.Spec g) <> [] ->
        exists items,
          specMembers = [("services", Json.JArr items)]
          /\ Forall2 encodesItem (V1.Services (V1.Spec g)) items).
Proof.
  unfold V1.marshalIngressGroup, V1.marshalIngressGroupSpec.
  destruct (V1.Services (V1.Spec g)) as [| it rest] eqn:E.
  - exists []. repeat split. intros H. contradiction.
  - eexists. split; [reflexivity |]. split; [discriminate |].
    intros _. eexists. split; [reflexivity |].
    apply (marshal_items (it :: rest)).
Qed.

End Wire.

(** C6, as stated, fails for a group without services: its [spec] is the
    empty object, so no [services] member holds an array. *)
Lemma wire_shape_without_services_counterexample :
  Json.field "spec"
    (V1.marshalIngressGroup Sample.encodeTypeMeta Sample.encodeObjectMeta
                            Sample.bare)
  = Some (Json.JObj [])
  /\ ~ (exists items,
          Json.field "spec"
            (V1.marshalIngressGroup Sample.encodeTypeMeta
                                    Sample.encodeObjectMeta Sample.bare)
          = Some (Json.JObj [("services", Json.JArr items)])).
Proof.
  split; [reflexivity |].
  intros [items H]. cbn in H. discriminate.
Qed.

(** ** Process configuration *)

Section Configuration.

Variable X : Externals.

(** C7. [main] defines exactly two flags, the strings "master" and
    "kubeconfig", both with the empty string as default, and the server
    struct has those two fields and no other. Both are optional: the empty
    command line parses and leaves both empty, and a command line that sets
    them stores each value in its own field. [createClients] hands [Master]
    to [BuildConfigFromFlags] as the API endpoint and [Kubeconfig] as the
    credential file, whatever they hold: the error of that call is returned
    as it is, its config is the one the clients are built from, and clients
    come from no other call. With both flags left out the call is the one on
    two empty strings. *)
Theorem process_configuration (w : World) :
  map (fun f => (Flag.Name f, Flag.DefValue f)) (fst defineFlags)
  = [("master", ""); ("kubeconfig", "")]
  /\ (forall s, s = {| Master := Master s; Kubeconfig := Kubeconfig s |})
  /\ Flag.Parse [] (fst defineFlags) (snd defineFlags)
     = Ok {| Master := ""; Kubeconfig := "" |}
  /\ (forall m k,
        Flag.Parse [("master", m); ("kubeconfig", k)]
                   (fst defineFlags) (snd defineFlags)
        = Ok {| Master := m; Kubeconfig := k |})
  /\ (forall m k err,
        BuildConfigFromFlags X m k = Err err ->
        createClients X {| Master := m; Kubeconfig := k |} w
        = (w, Val (Err err)))
  /\ (forall m k cfg,
        BuildConfigFromFlags X m k = Ok cfg ->
        kubeNewForConfig X (adjusted X cfg) = None ->
        extensionsNewForConfig X (adjusted X cfg) = None ->
        createClients X {| Master := m; Kubeconfig := k |} w
        = (w, Val (Ok (Rest.mkKubeClientset (adjusted X cfg),
                       Rest.mkExtensionsClientset (adjusted X cfg),
                       adjusted X cfg))))
  /\ (forall m k w' clients,
        createClients X {| Master := m; Kubeconfig := k |} w
        = (w', Val (Ok clients)) ->
        exists cfg,
          BuildConfigFromFlags X m k = Ok cfg
          /\ snd clients = adjusted X cfg)
  /\ (forall err,
        BuildConfigFromFlags X "" "" = Err err ->
        createClients X (snd defineFlags) w = (w, Val (Err err)))
  /\ (forall cfg,
        BuildConfigFromFlags X "" "" = Ok cfg ->
        kubeNewForConfig X (adjusted X cfg) = None ->
        extensionsNewForConfig X (adjusted X cfg) = None ->
        createClients X (snd defineFlags) w
        = (w, Val (Ok (Rest.mkKubeClientset (adjusted X cfg),
                       Rest.mkExtensionsClientset (adjusted X cfg),
                       adjusted X cfg)))).
Proof.
  assert (He : forall m k err,
             BuildConfigFromFlags X m k = Err err ->
             createClients X {| Master := m; Kubeconfig := k |} w
             = (w, Val (Err err))).
  { intros m k err H. unfold createClients. cbn [Master Kubeconfig].
    rewrite H. reflexivity. }
  assert (Ho : forall m k cfg,
             BuildConfigFromFlags X m k = Ok cfg ->
             kubeNewForConfig X (adjusted X cfg) = None ->
             extensionsNewForConfig X (adjusted X cfg) = None ->
             createClients X {| Master := m; Kubeconfig := k |} w
             = (w, Val (Ok (Rest.mkKubeClientset (adjusted X cfg),
                            Rest.mkExtensionsClientset (adjusted X cfg),
                            adjusted X cfg)))).
  { intros m k cfg H Hk Hx. unfold createClients. cbn [Master Kubeconfig].
    rewrite H. cbn [bind ret Monad_Task]. unfold taskBind at 1.
    fold (adjusted X cfg). rewrite Hk. cbn [taskRet]. unfold taskBind at 1.
    change (Rest.AddUserAgent (defaultUserAgent X) (adjusted X cfg)
                              "operator-manager")
      with (adjusted X cfg).
    rewrite Hx. reflexivity. }
  split; [reflexivity |].
  split; [intros [m k]; reflexivity |].
  split; [reflexivity |].
  split; [reflexivity |].
  split; [exact He |]. split; [exact Ho |].
  split.
  - intros m k w' clients. unfold createClients. cbn [Master Kubeconfig].
    destruct (BuildConfigFromFlags X m k) as [cfg | e]; [| discriminate].
    cbn [bind ret Monad_Task]. unfold taskBind at 1. fold (adjusted X cfg).
    destruct (kubeNewForConfig X (adjusted X cfg)); [discriminate |].
    cbn [taskRet]. unfold taskBind at 1.
    change (Rest.AddUserAgent (defaultUserAgent X) (adjusted X cfg)
                              "operator-manager")
      with (adjusted X cfg).
    destruct (extensionsNewForConfig X (adjusted X cfg)); [discriminate |].
    cbn [taskRet]. intros E. inversion E; subst. exists cfg.
    split; reflexivity.
  - split; [exact (He "" "") | exact (Ho "" "")].
Qed.

End Configuration.

(** * Further properties of the code *)

Import Coverage.

(** ** Failures of the client set-up *)

Section ClientSetup.

Variable X : Externals.

(** The world [Run] works in once it has logged the version. *)
Lemma Run_config_error s w err :
  BuildConfigFromFlags X (Master s) (Kubeconfig s) = Err err ->
  Run X s w
  = (setConsole (log Info ("Version: " ++ versionInfo X) (console w)) w,
     Val (Some err)).
Proof.
  intros H. unfold Run. cbn [bind ret Monad_Task]. unfold taskBind at 1.
  rewrite Infof_run. unfold taskBind at 1. unfold createClients.
  rewrite H. reflexivity.
Qed.

(** X1. When the client configuration cannot be built, [Run] returns that
    error with the version line as its only klog call and without a write
    of its own to [os.Stderr]: no definition is submitted, the cluster is
    untouched and no informer is started. [main] then makes one write to
    [os.Stderr], the error followed by a newline, and leaves with exit
    status 1. *)
Theorem config_error_stops_before_registration s w err :
  BuildConfigFromFlags X (Master s) (Kubeconfig s) = Err err ->
  snd (Run X s w) = Val (Some err)
  /\ klog (console (fst (Run X s w)))
     = klog (console w) ++ [(Info, ("Version: " ++ versionInfo X)%string)]
  /\ stderr (console (fst (Run X s w))) = stderr (console w)
  /\ requests (fst (Run X s w)) = requests w
  /\ cluster (fst (Run X s w)) = cluster w
  /\ transport (fst (Run X s w)) = transport w
  /\ started (fst (Run X s w)) = started w
  /\ forall args,
      Flag.Parse args (fst defineFlags) (snd defineFlags) = Ok s ->
      versionRequested X = false ->
      snd (main X args w) = Exited 1
      /\ stderr (console (fst (main X args w)))
         = stderr (console w) ++ [(Errors.Message err ++ newline)%string]
      /\ klog (console (fst (main X args w)))
         = klog (console w) ++ [(Info, ("Version: " ++ versionInfo X)%string)]
      /\ requests (fst (main X args w)) = requests w.
Proof.
  intros H. pose proof (Run_config_error s w err H) as HR. rewrite HR.
  do 7 (split; [reflexivity |]).
  intros args Hp Hv.
  assert (Hm : main X args w
               = (setConsole
                    (write (Errors.Message err ++ newline)
                       (log Info ("Version: " ++ versionInfo X)
                            (console w))) w,
                  Exited 1%Z)).
  { unfold main. rewrite Hp, Hv.
    cbn [bind ret Monad_Task]. unfold taskBind at 1. cbn [taskRet].
    unfold taskBind at 1. rewrite HR. reflexivity. }
  rewrite Hm. repeat split.
Qed.

(** [createClients] when a client constructor refuses the config. *)
Lemma createClients_fatal s w cfg err :
  BuildConfigFromFlags X (Master s) (Kubeconfig s) = Ok cfg ->
  firstClientError X (adjusted X cfg) = Some err ->
  createClients X s w
  = (setConsole
       (log Fatal ("Invalid API configuration: " ++ Errors.Message err)
            (console w)) w,
     Exited 255).
Proof.
  intros H Hf. unfold createClients. rewrite H.
  cbn [bind ret Monad_Task]. unfold taskBind at 1. fold (adjusted X cfg).
  unfold firstClientError in Hf.
  destruct (kubeNewForConfig X (adjusted X cfg)) as [e |].
  - inversion Hf; subst e. reflexivity.
  - cbn [taskRet]. unfold taskBind at 1.
    change (Rest.AddUserAgent (defaultUserAgent X) (adjusted X cfg)
                               "operator-manager")
      with (adjusted X cfg).
    rewrite Hf. reflexivity.
Qed.

(** X2. When the kube client or, failing that, the extensions client cannot
    be built from the tuned config, [createClients] logs "Invalid API
    configuration: " followed by the error at Fatal severity and the process
    leaves with exit status 255, from [createClients], from [Run] and from
    [main] alike; no definition has been submitted and no informer
    started. *)
Theorem client_construction_failure_is_fatal s w cfg err :
  BuildConfigFromFlags X (Master s) (Kubeconfig s) = Ok cfg ->
  firstClientError X (adjusted X cfg) = Some err ->
  createClients X s w
  = (setConsole
       (log Fatal ("Invalid API configuration: " ++ Errors.Message err)
            (console w)) w,
     Exited 255)
  /\ snd (Run X s w) = Exited 255
  /\ klog (console (fst (Run X s w)))
     = klog (console w)
       ++ [(Info, ("Version: " ++ versionInfo X)%string);
           (Fatal, ("Invalid API configuration: " ++ Errors.Message err)%string)]
  /\ requests (fst (Run X s w)) = requests w
  /\ started (fst (Run X s w)) = started w
  /\ forall args,
      Flag.Parse args (fst defineFlags) (snd defineFlags) = Ok s ->
      versionRequested X = false ->
      snd (main X args w) = Exited 255.
Proof.
  intros H Hf. split; [exact (createClients_fatal s w cfg err H Hf) |].
  assert (HR : Run X s w
               = (setConsole
                    (log Fatal
                       ("Invalid API configuration: " ++ Errors.Message err)
                       (log Info ("Version: " ++ versionInfo X) (console w)))
                    w,
                  Exited 255%Z)).
  { unfold Run. cbn [bind ret Monad_Task]. unfold taskBind at 1.
    rewrite Infof_run. unfold taskBind at 1.
    rewrite (createClients_fatal s _ cfg err H Hf). reflexivity. }
  rewrite HR. cbn [fst snd].
  split; [reflexivity |].
  split; [cbn; rewrite <- app_assoc; reflexivity |].
  split; [reflexivity |]. split; [reflexivity |].
  intros args Hp Hv. unfold main. rewrite Hp, Hv.
  cbn [bind ret Monad_Task]. unfold taskBind at 1. cbn [taskRet].
  unfold taskBind at 1. rewrite HR. reflexivity.
Qed.

(** X3. Whenever [createClients] returns clients, it has made no klog call
    and no write of its own and has left the world as it found it, and the
    config it returns is the one [BuildConfigFromFlags] gave for the two
    flags with QPS and burst set to 100 and the user agent set to the
    default agent of the binary followed by "/operator-manager"; the host is
    kept and both clients are built from that same config. *)
Theorem createClients_tunes_config s w w' kubeClient extensionClient kubeconfig :
  createClients X s w
  = (w', Val (Ok (kubeClient, extensionClient, kubeconfig))) ->
  w' = w
  /\ exists cfg,
      BuildConfigFromFlags X (Master s) (Kubeconfig s) = Ok cfg
      /\ kubeconfig = adjusted X cfg
      /\ Rest.Host kubeconfig = Rest.Host cfg
      /\ Rest.QPS kubeconfig = 100%Z
      /\ Rest.Burst kubeconfig = 100%Z
      /\ Rest.UserAgent kubeconfig
         = (defaultUserAgent X ++ "/operator-manager")%string
      /\ Rest.kubeConfig kubeClient = kubeconfig
      /\ Rest.extensionsConfig extensionClient = kubeconfig
      /\ firstClientError X kubeconfig = None.
Proof.
  unfold createClients, firstClientError.
  destruct (BuildConfigFromFlags X (Master s) (Kubeconfig s)) as [cfg | e].
  - cbn [bind ret Monad_Task]. unfold taskBind at 1. fold (adjusted X cfg).
    destruct (kubeNewForConfig X (adjusted X cfg)) as [e |] eqn:Hk;
      [discriminate |].
    cbn [taskRet]. unfold taskBind at 1.
    change (Rest.AddUserAgent (defaultUserAgent X) (adjusted X cfg)
                               "operator-manager")
      with (adjusted X cfg).
    destruct (extensionsNewForConfig X (adjusted X cfg)) as [e |] eqn:He;
      [discriminate |].
    cbn [taskRet]. intros E. inversion E; subst.
    split; [reflexivity |]. exists cfg. rewrite Hk, He. repeat split.
  - cbn. discriminate.
Qed.

End ClientSetup.

Lemma config_error_stops_before_registration_witness :
  snd (main Faults.noConfig [] Sample.fresh) = Exited 1
  /\ requests (fst (main Faults.noConfig [] Sample.fresh)) = [].
Proof.
  destruct (config_error_stops_before_registration
              Faults.noConfig NewOMServer Sample.fresh Faults.unreachable
              eq_refl)
    as (_ & _ & _ & _ & _ & _ & _ & Hm).
  destruct (Hm [] eq_refl eq_refl) as (He & _ & _ & Hr).
  split; [exact He | exact Hr].
Defined.

Lemma client_construction_failure_is_fatal_witness :
  snd (Run Faults.noExtensionsClient NewOMServer Sample.fresh) = Exited 255
  /\ requests (fst (Run Faults.noExtensionsClient NewOMServer Sample.fresh))
     = [].
Proof.
  destruct (client_construction_failure_is_fatal
              Faults.noExtensionsClient NewOMServer Sample.fresh
              Sample.config Faults.refused eq_refl eq_refl)
    as (_ & He & _ & Hr & _).
  split; [exact He | exact Hr].
Defined.

Lemma createClients_tunes_config_witness :
  Rest.QPS (adjusted Sample.X Sample.config) = 100%Z
  /\ Rest.Host (adjusted Sample.X Sample.config) = "https://10.96.0.1:443".
Proof.
  destruct (createClients_tunes_config
              Sample.X NewOMServer Sample.fresh Sample.fresh
              (Rest.mkKubeClientset (adjusted Sample.X Sample.config))
              (Rest.mkExtensionsClientset (adjusted Sample.X Sample.config))
              (adjusted Sample.X Sample.config) eq_refl)
    as (_ & cfg & _ & _ & _ & Hq & _).
  split; [exact Hq | reflexivity].
Defined.

(** ** What [Run] does to the world *)

Section RunEffects.

Variable X : Externals.

(** The three ways [createClients] can end. *)
Lemma createClients_cases s w :
  (exists err,
      BuildConfigFromFlags X (Master s) (Kubeconfig s) = Err err
      /\ createClients X s w = (w, Val (Err err)))
  \/ (exists cfg,
        BuildConfigFromFlags X (Master s) (Kubeconfig s) = Ok cfg
        /\ firstClientError X (adjusted X cfg) = None
        /\ createClients X s w
           = (w, Val (Ok (Rest.mkKubeClientset (adjusted X cfg),
                          Rest.mkExtensionsClientset (adjusted X cfg),
                          adjusted X cfg))))
  \/ (exists cfg err,
        BuildConfigFromFlags X (Master s) (Kubeconfig s) = Ok cfg
        /\ firstClientError X (adjusted X cfg) = Some err
        /\ createClients X s w
           = (setConsole
                (log Fatal ("Invalid API configuration: " ++ Errors.Message err)
                     (console w)) w,
              Exited 255)).
Proof.
  destruct (BuildConfigFromFlags X (Master s) (Kubeconfig s)) as [cfg | e] eqn:H.
  - right. destruct (firstClientError X (adjusted X cfg)) as [err |] eqn:Hf.
    + right. exists cfg, err. repeat split; try assumption.
      apply createClients_fatal with (cfg := cfg); assumption.
    + left. exists cfg. repeat split; try assumption.
      unfold createClients, firstClientError in *. rewrite H.
      cbn [bind ret Monad_Task]. unfold taskBind at 1. fold (adjusted X cfg).
      destruct (kubeNewForConfig X (adjusted X cfg)); [discriminate |].
      cbn [taskRet]. unfold taskBind at 1.
      change (Rest.AddUserAgent (defaultUserAgent X) (adjusted X cfg)
                               "operator-manager")
        with (adjusted X cfg).
      rewrite Hf. reflexivity.
  - left. exists e. split; [reflexivity |].
    unfold createClients. rewrite H. reflexivity.
Qed.

(** What a registration call changes: the request is recorded, one
    transport slot is used, and the store keeps every definition, with the
    submitted one possibly added at the end. *)
Lemma CreateIngressGroupCRD_frame ext w :
  requests (fst (CreateIngressGroupCRD X ext w)) = requests w ++ [crd X]
  /\ transport (fst (CreateIngressGroupCRD X ext w)) = tl (transport w)
  /\ console (fst (CreateIngressGroupCRD X ext w)) = console w
  /\ (cluster (fst (CreateIngressGroupCRD X ext w)) = cluster w
      \/ cluster (fst (CreateIngressGroupCRD X ext w)) = cluster w ++ [crd X]).
Proof.
  unfold CreateIngressGroupCRD, Create, sent. cbn [bind ret Monad_Task].
  unfold taskBind.
  destruct (transport w) as [| [e |] rest];
    try destruct (stored _ _); cbn; repeat split; auto.
Qed.

(** After registration [Run] changes the console and the started informers
    only. *)
Lemma Run_tail_frame s w w1 clients w2 err :
  createClients X s (fst (Infof ("Version: " ++ versionInfo X) w))
    = (w1, Val (Ok clients)) ->
  CreateIngressGroupCRD X (snd (fst clients)) w1 = (w2, Val err) ->
  requests (fst (Run X s w)) = requests w2
  /\ cluster (fst (Run X s w)) = cluster w2
  /\ transport (fst (Run X s w)) = transport w2.
Proof.
  intros Hc Hr. rewrite (Run_after_registration X _ _ _ _ _ _ Hc Hr).
  cbn [bind ret Monad_Task]. unfold taskBind.
  destruct err as [e |]; [destruct (Errors.IsAlreadyExists e) |];
    cbn; try (repeat split; reflexivity);
    destruct (versionedNewForConfig X (snd clients)); cbn;
    repeat split; reflexivity.
Qed.

(** X4. [Run] submits at most one definition, and the one it submits is
    always the definition of [CreateIngressGroupCRD]. It never removes or
    rewrites a stored definition: the store it leaves is the store it found,
    with that definition possibly added at the end. It submits exactly when
    the client set-up succeeded, and then uses one transport slot. *)
Theorem Run_submits_at_most_once s w :
  (requests (fst (Run X s w)) = requests w
   /\ cluster (fst (Run X s w)) = cluster w
   /\ transport (fst (Run X s w)) = transport w
   /\ forall cfg,
       BuildConfigFromFlags X (Master s) (Kubeconfig s) = Ok cfg ->
       firstClientError X (adjusted X cfg) <> None)
  \/ (requests (fst (Run X s w)) = requests w ++ [crd X]
      /\ (cluster (fst (Run X s w)) = cluster w
          \/ cluster (fst (Run X s w)) = cluster w ++ [crd X])
      /\ transport (fst (Run X s w)) = tl (transport w)
      /\ exists cfg,
          BuildConfigFromFlags X (Master s) (Kubeconfig s) = Ok cfg
          /\ firstClientError X (adjusted X cfg) = None).
Proof.
  destruct (createClients_cases
              s (fst (Infof ("Version: " ++ versionInfo X) w)))
    as [(err & Hb & Hc) | [(cfg & Hb & Hf & Hc) | (cfg & err & Hb & Hf & Hc)]].
  - left. rewrite (Run_config_error X s w err Hb). cbn.
    repeat split. intros cfg H. congruence.
  - right.
    destruct (CreateIngressGroupCRD_returns
                X (Rest.mkExtensionsClientset (adjusted X cfg))
                (fst (Infof ("Version: " ++ versionInfo X) w)))
      as (w2 & r & Hr).
    destruct (Run_tail_frame s w _ _ _ _ Hc Hr) as (Hq & Hcl & Ht).
    destruct (CreateIngressGroupCRD_frame
                (Rest.mkExtensionsClientset (adjusted X cfg))
                (fst (Infof ("Version: " ++ versionInfo X) w)))
      as (Fq & Ft & _ & Fcl).
    cbn [snd fst] in Hr. rewrite Hr in Fq, Ft, Fcl. cbn [fst] in Fq, Ft, Fcl.
    rewrite Hq, Hcl, Ht, Fq, Ft.
    split; [reflexivity |]. split; [exact Fcl |]. split; [reflexivity |].
    exists cfg. split; assumption.
  - left.
    assert (HR : Run X s w
                 = (setConsole
                      (log Fatal
                         ("Invalid API configuration: " ++ Errors.Message err)
                         (log Info ("Version: " ++ versionInfo X) (console w)))
                      w,
                    Exited 255%Z)).
    { unfold Run. cbn [bind ret Monad_Task]. unfold taskBind at 1.
      rewrite Infof_run in *. cbn [fst] in Hc. unfold taskBind at 1.
      rewrite Hc. reflexivity. }
    rewrite HR. cbn. repeat split. intros cfg' H. congruence.
Qed.

End RunEffects.

(** ** The paths of [Run] past the client set-up *)

Lemma FprintStderr_world (s : string) (w : World) :
  FprintStderr s w = (setConsole (write s (console w)) w, Val tt).
Proof. reflexivity. Qed.

Section RunPaths.

Variable X : Externals.

(** [Run] when the clients are built and registration reaches the store. *)
Lemma Run_reaching_store s w cfg :
  BuildConfigFromFlags X (Master s) (Kubeconfig s) = Ok cfg ->
  firstClientError X (adjusted X cfg) = None ->
  hd None (transport w) = None ->
  Run X s w
  = match versionedNewForConfig X (adjusted X cfg) with
    | Some e =>
      (setConsole (log Fatal (Errors.Message e)
                       (console (afterRegistration X w)))
                  (afterRegistration X w),
       Exited 255)
    | None => (running (adjusted X cfg) (afterRegistration X w), Blocked)
    end.
Proof.
  intros Hb Hf Ht.
  destruct (createClients_cases X s (afterVersion X w))
    as [(err & Hb' & _) | [(cfg' & Hb' & _ & Hc) | (cfg' & err & Hb' & Hf' & _)]];
    try congruence.
  assert (cfg' = cfg) by congruence. subst cfg'.
  pose proof (CreateIngressGroupCRD_reaches
                X (Rest.mkExtensionsClientset (adjusted X cfg))
                (afterVersion X w) Ht) as Hr.
  unfold afterRegistration.
  change (cluster (afterVersion X w)) with (cluster w) in Hr.
  destruct (stored (crdName (crd X)) (cluster w)).
  - rewrite (Run_after_registration X _ _ _ _ _ _ Hc Hr).
    cbn [bind ret Monad_Task Errors.IsAlreadyExists Errors.NewAlreadyExists
         Errors.ReasonForError Errors.Reason Errors.reason_eqb snd].
    unfold taskBind at 1. unfold taskBind at 1. rewrite Infof_run.
    cbn [taskRet]. unfold taskBind at 1.
    destruct (versionedNewForConfig X (adjusted X cfg)); reflexivity.
  - rewrite (Run_after_registration X _ _ _ _ _ _ Hc Hr).
    cbn [bind ret Monad_Task snd]. unfold taskBind at 1. cbn [taskRet].
    unfold taskBind at 1.
    destruct (versionedNewForConfig X (adjusted X cfg)); reflexivity.
Qed.

(** X5. When the client of the custom resource cannot be built, [Run] ends
    the process with exit status 255 after registration: the definition has
    been submitted and is stored, the error is the line of the last klog
    call, at Fatal severity, [Run] has made no write of its own to
    [os.Stderr] and no informer has been started. *)
Theorem versioned_client_failure_is_fatal s w cfg e :
  BuildConfigFromFlags X (Master s) (Kubeconfig s) = Ok cfg ->
  firstClientError X (adjusted X cfg) = None ->
  hd None (transport w) = None ->
  versionedNewForConfig X (adjusted X cfg) = Some e ->
  snd (Run X s w) = Exited 255
  /\ requests (fst (Run X s w)) = requests w ++ [crd X]
  /\ stored (crdName (crd X)) (cluster (fst (Run X s w))) = true
  /\ (exists before,
        klog (console (fst (Run X s w)))
        = before ++ [(Fatal, Errors.Message e)])
  /\ stderr (console (fst (Run X s w))) = stderr (console w)
  /\ started (fst (Run X s w)) = started w.
Proof.
  intros Hb Hf Ht Hv. rewrite (Run_reaching_store s w cfg Hb Hf Ht), Hv.
  unfold afterRegistration.
  destruct (stored (crdName (crd X)) (cluster w)) eqn:E; cbn [fst snd].
  - repeat split; try reflexivity; try exact E.
    eexists. reflexivity.
  - repeat split; try reflexivity.
    + cbn [setConsole HasConsole_World cluster sent].
      rewrite stored_app. cbn. rewrite String.eqb_refl.
      apply orb_true_r.
    + eexists. reflexivity.
Qed.

(** X6. Whatever happens next, the first klog call [Run] makes is the one
    for the version. It makes at most two more, and it makes at most one
    write of its own to [os.Stderr]: the message of the error it then
    returns. *)
Theorem Run_logs_version_first s w :
  exists rest,
    klog (console (fst (Run X s w)))
    = klog (console w) ++ (Info, ("Version: " ++ versionInfo X)%string) :: rest
    /\ length rest <= 2
    /\ (stderr (console (fst (Run X s w))) = stderr (console w)
        \/ exists err,
            snd (Run X s w) = Val (Some err)
            /\ stderr (console (fst (Run X s w)))
               = stderr (console w) ++ [Errors.Message err]).
Proof.
  destruct (createClients_cases
              X s (fst (Infof ("Version: " ++ versionInfo X) w)))
    as [(err & Hb & Hc) | [(cfg & Hb & Hf & Hc) | (cfg & err & Hb & Hf & Hc)]].
  - rewrite (Run_config_error X s w err Hb). exists []. cbn.
    repeat split; auto.
  - destruct (CreateIngressGroupCRD_returns
                X (Rest.mkExtensionsClientset (adjusted X cfg))
                (fst (Infof ("Version: " ++ versionInfo X) w)))
      as (w2 & r & Hr).
    destruct (CreateIngressGroupCRD_frame
                X (Rest.mkExtensionsClientset (adjusted X cfg))
                (fst (Infof ("Version: " ++ versionInfo X) w)))
      as (_ & _ & Fc & _).
    rewrite Hr in Fc. cbn [fst] in Fc.
    rewrite (Run_after_registration X _ _ _ _ _ _ Hc Hr).
    cbn [bind ret Monad_Task snd]. unfold taskBind at 1.
    destruct r as [e |]; [destruct (Errors.IsAlreadyExists e) |].
    + unfold taskBind at 1. rewrite Infof_run. cbn [taskRet].
      unfold taskBind at 1.
      destruct (versionedNewForConfig X (adjusted X cfg)) as [e' |];
        cbn; rewrite Fc; cbn.
      * exists [(Info, "redis cluster crd is already created.");
                (Fatal, Errors.Message e')].
        rewrite <- !app_assoc. cbn. repeat split; auto.
      * exists [(Info, "redis cluster crd is already created.")].
        rewrite <- !app_assoc. cbn. repeat split; auto.
    + unfold taskBind at 1. rewrite FprintStderr_world. cbn [taskRet].
      cbn. rewrite Fc. cbn. exists []. repeat split; auto.
      right. exists e. split; reflexivity.
    + cbn [taskRet]. unfold taskBind at 1.
      destruct (versionedNewForConfig X (adjusted X cfg)) as [e' |];
        cbn; rewrite Fc; cbn.
      * exists [(Fatal, Errors.Message e')].
        rewrite <- !app_assoc. cbn. repeat split; auto.
      * exists []. repeat split; auto.
  - assert (HR : Run X s w
                 = (setConsole
                      (log Fatal
                         ("Invalid API configuration: " ++ Errors.Message err)
                         (log Info ("Version: " ++ versionInfo X) (console w)))
                      w,
                    Exited 255%Z)).
    { unfold Run. cbn [bind ret Monad_Task]. unfold taskBind at 1.
      rewrite Infof_run in *. cbn [fst] in Hc. unfold taskBind at 1.
      rewrite Hc. reflexivity. }
    rewrite HR. cbn.
    exists [(Fatal, ("Invalid API configuration: " ++ Errors.Message err)%string)].
    rewrite <- !app_assoc. cbn. repeat split; auto.
Qed.

(** X7. A controller that is started again against the cluster a first
    run has left finds the definition there: its klog calls are the version
    line and the line that says so, it makes no write of its own to
    [os.Stderr], it leaves the store as it is, with the definition stored,
    and it ends up parked with its informers started, like the first run. *)
Theorem restart_finds_definition s w cfg :
  BuildConfigFromFlags X (Master s) (Kubeconfig s) = Ok cfg ->
  firstClientError X (adjusted X cfg) = None ->
  versionedNewForConfig X (adjusted X cfg) = None ->
  hd None (transport w) = None ->
  hd None (tl (transport w)) = None ->
  snd (Run X s w) = Blocked
  /\ stored (crdName (crd X)) (cluster (fst (Run X s w))) = true
  /\ snd (Run X s (restart (fst (Run X s w)))) = Blocked
  /\ cluster (fst (Run X s (restart (fst (Run X s w)))))
     = cluster (fst (Run X s w))
  /\ klog (console (fst (Run X s (restart (fst (Run X s w))))))
     = [(Info, ("Version: " ++ versionInfo X)%string);
        (Info, "redis cluster crd is already created.")]
  /\ stderr (console (fst (Run X s (restart (fst (Run X s w)))))) = []
  /\ started (fst (Run X s (restart (fst (Run X s w)))))
     = [(startedFactory (Rest.mkVersionedClientset (adjusted X cfg)), Done TODO)].
Proof.
  intros Hb Hf Hv Ht Ht'.
  rewrite (Run_reaching_store s w cfg Hb Hf Ht), Hv. cbn [fst snd].
  assert (Hst : stored (crdName (crd X))
                       (cluster (running (adjusted X cfg) (afterRegistration X w)))
                = true).
  { unfold afterRegistration.
    destruct (stored (crdName (crd X)) (cluster w)) eqn:E;
      cbn [running cluster sent setConsole HasConsole_World].
    - exact E.
    - rewrite stored_app. cbn. rewrite String.eqb_refl. apply orb_true_r. }
  assert (Htr : hd None (transport
                           (restart (running (adjusted X cfg)
                                             (afterRegistration X w))))
                = None).
  { unfold afterRegistration.
    destruct (stored (crdName (crd X)) (cluster w)); cbn; exact Ht'. }
  rewrite (Run_reaching_store s _ cfg Hb Hf Htr), Hv. cbn [fst snd].
  split; [reflexivity |]. split; [exact Hst |]. split; [reflexivity |].
  remember (running (adjusted X cfg) (afterRegistration X w)) as w1 eqn:E1.
  clear E1. unfold afterRegistration.
  change (cluster (restart w1)) with (cluster w1).
  rewrite Hst. repeat split; reflexivity.
Qed.

End RunPaths.

Lemma versioned_client_failure_is_fatal_witness :
  snd (Run Faults.noVersionedClient NewOMServer Sample.fresh) = Exited 255
  /\ length (cluster (fst (Run Faults.noVersionedClient NewOMServer
                                Sample.fresh))) = 1.
Proof.
  split; [| reflexivity].
  exact (proj1 (versioned_client_failure_is_fatal
                  Faults.noVersionedClient NewOMServer Sample.fresh
                  Sample.config Faults.refused
                  eq_refl eq_refl eq_refl eq_refl)).
Defined.

Lemma restart_finds_definition_witness :
  snd (Run Sample.X NewOMServer
           (restart (fst (Run Sample.X NewOMServer Sample.fresh)))) = Blocked
  /\ length (cluster (fst (Run Sample.X NewOMServer
                   (restart (fst (Run Sample.X NewOMServer Sample.fresh))))))
     = 1.
Proof.
  split; [| reflexivity].
  destruct (restart_finds_definition
              Sample.X NewOMServer Sample.fresh Sample.config
              eq_refl eq_refl eq_refl eq_refl eq_refl)
    as (_ & _ & Hb & _).
  exact Hb.
Defined.

(** ** The command line *)

Section CommandLine.

Variable X : Externals.

Lemma Parse_from args : forall s0,
  forallb defined args = true ->
  Flag.Parse args (fst defineFlags) s0
  = Ok {| Master := lastValue "master" args (Master s0);
          Kubeconfig := lastValue "kubeconfig" args (Kubeconfig s0) |}.
Proof.
  induction args as [| [n v] rest IH]; intros s0 Hd.
  - destruct s0. reflexivity.
  - cbn [forallb] in Hd. apply andb_prop in Hd. destruct Hd as [Hn Hr].
    unfold defined in Hn. cbn [fst] in Hn. cbn [lastValue Flag.Parse].
    destruct (String.eqb_spec n "master") as [-> | Hm].
    + cbn. rewrite (IH _ Hr). reflexivity.
    + destruct (String.eqb_spec n "kubeconfig") as [-> | Hk];
        [| discriminate Hn].
      cbn. rewrite (IH _ Hr). reflexivity.
Qed.

Lemma lastValue_app name args args' : forall default,
  lastValue name (args ++ args') default
  = lastValue name args' (lastValue name args default).
Proof.
  induction args as [| [n v] rest IH]; intros default; cbn; [reflexivity |].
  apply IH.
Qed.

(** X8. Every command line made of assignments to the two flags parses,
    and each field ends up with the value of the last assignment to its own
    flag, or with the empty default: [master] writes [Master] only and
    [kubeconfig] writes [Kubeconfig] only, so one more assignment to a flag
    at the end sets its field and leaves the other field as it was. *)
Theorem flags_last_assignment_wins args :
  forallb defined args = true ->
  Flag.Parse args (fst defineFlags) (snd defineFlags) = Ok (parsed args)
  /\ (forall m,
        parsed (args ++ [("master", m)])
        = {| Master := m; Kubeconfig := Kubeconfig (parsed args) |})
  /\ (forall k,
        parsed (args ++ [("kubeconfig", k)])
        = {| Master := Master (parsed args); Kubeconfig := k |}).
Proof.
  intros Hd. split; [exact (Parse_from args (snd defineFlags) Hd) |].
  unfold parsed. split; intros v; rewrite !lastValue_app; reflexivity.
Qed.

End CommandLine.

Lemma flags_last_assignment_wins_witness :
  Flag.Parse [("master", "https://a"); ("kubeconfig", "/k");
              ("master", "https://b")]
             (fst defineFlags) (snd defineFlags)
  = Ok {| Master := "https://b"; Kubeconfig := "/k" |}.
Proof.
  exact (proj1 (flags_last_assignment_wins
                  [("master", "https://a"); ("kubeconfig", "/k");
                   ("master", "https://b")] eq_refl)).
Defined.

(** ** The handlers on every payload *)

Section Payloads.


End Payloads.

(** ** register.go: qualified names and the scheme *)

Section Names.

Variable X : Externals.

(** X10. The name of the submitted definition is its plural, a dot and its
    group. For a non-empty group name that is the text of [Resource] applied
    to the plural, and [Kind] applied to the kind reads "IngressGroup." and
    the group; [Resource] and [Kind] keep the group of [SchemeGroupVersion]
    and drop its version. For the empty group name [Resource] gives the bare
    plural, which is not the definition's name. *)
Theorem crd_name_is_resource_name :
  crdName (crd X)
  = (V1beta1.Plural (V1beta1.Names (V1beta1.Spec (crd X)))
     ++ "." ++ V1beta1.Group (V1beta1.Spec (crd X)))%string
  /\ (forall r k,
        Schema.GroupResource.Group (Register.Resource (GroupName X) r)
        = GroupName X
        /\ Schema.GroupResource.Resource (Register.Resource (GroupName X) r) = r
        /\ Schema.GroupKind.Group (Register.Kind (GroupName X) k) = GroupName X
        /\ Schema.GroupKind.Kind (Register.Kind (GroupName X) k) = k)
  /\ (GroupName X <> "" ->
      Schema.GroupResource.String
        (Register.Resource (GroupName X)
           (V1beta1.Plural (V1beta1.Names (V1beta1.Spec (crd X)))))
      = crdName (crd X)
      /\ Schema.GroupKind.String
           (Register.Kind (GroupName X)
              (V1beta1.Kind (V1beta1.Names (V1beta1.Spec (crd X)))))
         = ("IngressGroup." ++ GroupName X)%string)
  /\ (GroupName X = "" ->
      Schema.GroupResource.String
        (Register.Resource (GroupName X)
           (V1beta1.Plural (V1beta1.Names (V1beta1.Spec (crd X)))))
      = "ingressgroups"
      /\ crdName (crd X) = "ingressgroups.").
Proof.
  split; [reflexivity |]. split; [intros r k; repeat split |].
  unfold Schema.GroupResource.String, Schema.GroupKind.String.
  cbn [Register.Resource Register.Kind Schema.GroupVersionResource.GroupResource
       Schema.GroupVersionKind.GroupKind Schema.WithResource Schema.WithKind
       Schema.GroupResource.Group Schema.GroupResource.Resource
       Schema.GroupKind.Group Schema.GroupKind.Kind
       Schema.GroupVersionResource.Group Schema.GroupVersionResource.Resource
       Schema.GroupVersionKind.Group Schema.GroupVersionKind.Kind
       V1.SchemeGroupVersion V1.Group].
  split.
  - intros Hne. destruct (String.eqb_spec (GroupName X) "") as [E | _];
      [contradiction |]. split; reflexivity.
  - intros He. unfold crdName. cbn. rewrite He. split; reflexivity.
Qed.

End Names.

Section SchemeRegistration.

Variable AddToGroupVersion
  : Runtime.Scheme -> V1.GroupVersion -> option Runtime.Scheme.

Lemma gvk_eqb_refl k : Schema.GroupVersionKind.eqb k k = true.
Proof.
  unfold Schema.GroupVersionKind.eqb. rewrite !String.eqb_refl. reflexivity.
Qed.

Lemma type_eqb_eq a b : Runtime.type_eqb a b = true -> a = b.
Proof.
  unfold Runtime.type_eqb. intros H. apply andb_prop in H.
  destruct H as [Hp Hn]. apply String.eqb_eq in Hp, Hn.
  destruct a, b; cbn in *; subst; reflexivity.
Qed.

Lemma typeOfKind_app k s s' t :
  Runtime.typeOfKind k s = Some t -> Runtime.typeOfKind k (s ++ s') = Some t.
Proof.
  induction s as [| [k' t'] s IH]; cbn; [discriminate |].
  destruct (Schema.GroupVersionKind.eqb k' k); auto.
Qed.

Lemma typeOfKind_snoc k s t :
  Runtime.typeOfKind k s = None ->
  Runtime.typeOfKind k (s ++ [(k, t)]) = Some t.
Proof.
  induction s as [| [k' t'] s IH]; cbn.
  - intros _. rewrite gvk_eqb_refl. reflexivity.
  - destruct (Schema.GroupVersionKind.eqb k' k); [discriminate | exact IH].
Qed.

(** A successful registration binds the kind to the type and keeps what the
    scheme held. *)
Lemma AddKnownTypeWithName_binds k t s s' :
  Runtime.AddKnownTypeWithName k t s = Some s' ->
  Runtime.typeOfKind k s' = Some t
  /\ (forall k' t', Runtime.typeOfKind k' s = Some t' ->
                    Runtime.typeOfKind k' s' = Some t').
Proof.
  unfold Runtime.AddKnownTypeWithName.
  destruct (String.eqb (Schema.GroupVersionKind.Version k) "");
    [discriminate |].
  destruct (Runtime.typeOfKind k s) as [old |] eqn:E.
  - destruct (Runtime.type_eqb old t) eqn:Et; [| discriminate].
    intros H. inversion H; subst s'. apply type_eqb_eq in Et. subst old.
    split; [exact E | auto].
  - intros H. inversion H; subst s'. split.
    + apply typeOfKind_snoc. exact E.
    + intros k' t' H'. apply typeOfKind_app. exact H'.
Qed.

(** X11. Whenever [AddToScheme] completes, it returns nil, and the scheme
    binds the two kinds the submitted definition declares, under the
    definition's group and version, to [IngressGroup] and
    [IngressGroupList]; every kind the scheme held before keeps its type,
    as long as the meta types are added without rebinding a kind. If the
    scheme already binds the kind IngressGroup of that group and version to
    another type, registration panics. *)
Theorem AddToScheme_registers_crd_kinds (X : Externals) scheme scheme' r :
  (forall s gv s' k t,
      AddToGroupVersion s gv = Some s' ->
      Runtime.typeOfKind k s = Some t -> Runtime.typeOfKind k s' = Some t) ->
  Register.AddToScheme (Main.GroupName X) AddToGroupVersion scheme
  = Some (scheme', r) ->
  r = None
  /\ Runtime.typeOfKind
       {| Schema.GroupVersionKind.Group := V1beta1.Group (V1beta1.Spec (crd X));
          Schema.GroupVersionKind.Version := "v1";
          Schema.GroupVersionKind.Kind :=
            V1beta1.Kind (V1beta1.Names (V1beta1.Spec (crd X))) |}
       scheme'
     = Some Register.IngressGroupType
  /\ Runtime.typeOfKind
       {| Schema.GroupVersionKind.Group := V1beta1.Group (V1beta1.Spec (crd X));
          Schema.GroupVersionKind.Version := "v1";
          Schema.GroupVersionKind.Kind :=
            V1beta1.ListKind (V1beta1.Names (V1beta1.Spec (crd X))) |}
       scheme'
     = Some Register.IngressGroupListType
  /\ (forall k t, Runtime.typeOfKind k scheme = Some t ->
                  Runtime.typeOfKind k scheme' = Some t)
  /\ (forall other,
        Runtime.typeOfKind
          (Schema.WithKind (V1.SchemeGroupVersion (Main.GroupName X))
                           "IngressGroup")
          scheme = Some other ->
        other = Register.IngressGroupType).
Proof.
  intros Hmeta.
  unfold Register.AddToScheme, Register.SchemeBuilder.
  cbn [Runtime.AddToScheme]. unfold Register.addKnownTypes.
  cbn [Runtime.AddKnownTypes Register.IngressGroupType
       Register.IngressGroupListType Runtime.TypeName].
  destruct (Runtime.AddKnownTypeWithName _ _ scheme) as [s1 |] eqn:E1;
    [| discriminate].
  destruct (Runtime.AddKnownTypeWithName _ _ s1) as [s2 |] eqn:E2;
    [| discriminate].
  destruct (AddToGroupVersion s2 _) as [s3 |] eqn:E3; [| discriminate].
  intros H. inversion H; subst scheme' r. clear H.
  destruct (AddKnownTypeWithName_binds _ _ _ _ E1) as [B1 P1].
  destruct (AddKnownTypeWithName_binds _ _ _ _ E2) as [B2 P2].
  split; [reflexivity |].
  split; [apply (Hmeta _ _ _ _ _ E3), P2; exact B1 |].
  split; [apply (Hmeta _ _ _ _ _ E3); exact B2 |].
  split.
  - intros k t Hk. apply (Hmeta _ _ _ _ _ E3), P2, P1. exact Hk.
  - intros other Ho. apply P1 in Ho.
    change (Schema.WithKind (V1.SchemeGroupVersion (Main.GroupName X))
                            "IngressGroup")
      with (Schema.WithKind (V1.SchemeGroupVersion (Main.GroupName X))
                            (Runtime.TypeName Register.IngressGroupType))
      in Ho.
    unfold Register.IngressGroupType in *. cbn [Runtime.TypeName] in *.
    congruence.
Qed.

End SchemeRegistration.

Lemma AddToScheme_registers_crd_kinds_witness :
  exists scheme,
    Register.AddToScheme (Main.GroupName Sample.X) addWatchEvent []
    = Some (scheme, None)
    /\ Runtime.typeOfKind
         {| Schema.GroupVersionKind.Group := "cr.example.io";
            Schema.GroupVersionKind.Version := "v1";
            Schema.GroupVersionKind.Kind := "IngressGroupList" |} scheme
       = Some Register.IngressGroupListType.
Proof.
  eexists. split; [reflexivity |].
  refine (proj1 (proj2 (proj2
            (AddToScheme_registers_crd_kinds
               addWatchEvent Sample.X [] _ None _ eq_refl)))).
  intros s gv s' k t H.
  apply (proj2 (AddKnownTypeWithName_binds _ _ _ _ H)).
Defined.

(** ** The wire form against the spec and the schema *)

Section WireForm.

Variable encodeTypeMeta : Metav1.TypeMeta -> list (string * Json.json).
Variable encodeObjectMeta : Metav1.ObjectMeta -> Json.json.

Lemma lookup_app k l l' :
  Json.lookup k (l ++ l')
  = match Json.lookup k l with
    | Some v => Some v
    | None => Json.lookup k l'
    end.
Proof.
  induction l as [| [k' v] l IH]; cbn; [reflexivity |].
  destruct (String.eqb k k'); [reflexivity | exact IH].
Qed.

(** One step of [validate]. *)
Lemma validate_step t required props items path v :
  Validation.validate (V1beta1.mkJSONSchemaProps t required props items) path v
  = (if Validation.typeMatches t v then []
     else [(path ++ ": must be " ++ t)%string])
    ++ match v with
       | Json.JObj members =>
         Validation.missing path members required
         ++ flat_map
              (fun ks =>
                 match Json.lookup (fst ks) members with
                 | Some v' =>
                   Validation.validate (snd ks) (Validation.child path (fst ks)) v'
                 | None => []
                 end) props
       | Json.JArr elems =>
         match items with
         | Some sub =>
           flat_map
             (fun ie =>
                Validation.validate sub (Validation.element path (fst ie))
                                    (snd ie))
             (Validation.indexFrom 0 elems)
         | None => []
         end
       | _ => []
       end.
Proof.
  cbn [Validation.validate]. f_equal.
  destruct v as [| | | | | members]; try reflexivity.
  f_equal. induction props as [| [k sub] props IH]; [reflexivity |].
  cbn [flat_map fst snd]. rewrite <- IH. reflexivity.
Qed.

(** The item schema finds nothing in what the encoder writes for items. *)
Lemma encoded_items_valid path services : forall n,
  flat_map
    (fun ie =>
       Validation.validate
         (V1beta1.mkJSONSchemaProps "object" ["name"; "namespace"]
            [("name", stringSchema); ("namespace", stringSchema)] None)
         (Validation.element path (fst ie)) (snd ie))
    (Validation.indexFrom n (map V1.marshalServiceItem services))
  = [].
Proof.
  induction services as [| it services IH]; intros n; cbn [map
    Validation.indexFrom flat_map]; [reflexivity |].
  rewrite IH. cbn. reflexivity.
Qed.

(** X13. Every group the encoder writes passes the schema the controller
    publishes, with services or without, provided the inline type metadata
    does not itself write a member called "spec". *)
Theorem encoded_groups_pass_schema (X : Externals) (g : V1.IngressGroup) :
  Json.lookup "spec" (encodeTypeMeta (V1.TypeMeta g)) = None ->
  Validation.violations
    (crd X) (V1.marshalIngressGroup encodeTypeMeta encodeObjectMeta g) = []
  /\ Validation.accepts
       (crd X) (V1.marshalIngressGroup encodeTypeMeta encodeObjectMeta g)
     = true.
Proof.
  intros Hk.
  assert (Hv : Validation.violations
                 (crd X)
                 (V1.marshalIngressGroup encodeTypeMeta encodeObjectMeta g)
               = []).
  { unfold Validation.violations, V1.marshalIngressGroup.
    cbn [crd V1beta1.Validation V1beta1.Spec V1beta1.OpenAPIV3Schema].
    rewrite validate_step.
    cbn [Validation.typeMatches String.eqb orb Validation.missing flat_map
         app fst snd].
    rewrite lookup_app, Hk.
    cbn [Json.lookup String.eqb Ascii.eqb Bool.eqb Validation.child].
    unfold V1.marshalIngressGroupSpec. rewrite validate_step.
    cbn [Validation.typeMatches String.eqb orb Validation.missing flat_map
         app fst snd].
    destruct (V1.Services (V1.Spec g)) as [| it rest].
    - reflexivity.
    - cbn [Json.lookup String.eqb Ascii.eqb Bool.eqb Validation.child].
      rewrite validate_step.
      cbn [Validation.typeMatches String.eqb Ascii.eqb Bool.eqb orb
           Json.typeOf app].
      rewrite (encoded_items_valid _ (it :: rest) 0). reflexivity. }
  split; [exact Hv |]. unfold Validation.accepts. rewrite Hv. reflexivity.
Qed.

End WireForm.

Lemma encoded_groups_pass_schema_witness :
  Validation.accepts
    (crd Sample.X)
    (V1.marshalIngressGroup Sample.encodeTypeMeta Sample.encodeObjectMeta
                            Sample.bare)
  = true.
Proof.
  exact (proj2 (encoded_groups_pass_schema
                  Sample.encodeTypeMeta Sample.encodeObjectMeta
                  Sample.X Sample.bare eq_refl)).
Defined.

(** ** What the published schema accepts *)

Section Acceptance.

Variable X : Externals.

Lemma item_valid_iff path e :
  Validation.validate
    (V1beta1.mkJSONSchemaProps "object" ["name"; "namespace"]
       [("name", stringSchema); ("namespace", stringSchema)] None)
    path e = []
  <-> wellFormedItem e = true.
Proof.
  destruct e as [| b | z | str | items | members]; cbn;
    try (split; discriminate).
  destruct (Json.lookup "name" members) as [[| b | z | str | items | ms] |];
    destruct (Json.lookup "namespace" members)
      as [[| b' | z' | str' | items' | ms'] |];
    cbn; split; intros H; try discriminate H; try reflexivity.
Qed.

Lemma items_valid_iff path items : forall n,
  flat_map
    (fun ie =>
       Validation.validate
         (V1beta1.mkJSONSchemaProps "object" ["name"; "namespace"]
            [("name", stringSchema); ("namespace", stringSchema)] None)
         (Validation.element path (fst ie)) (snd ie))
    (Validation.indexFrom n items) = []
  <-> forallb wellFormedItem items = true.
Proof.
  induction items as [| e items IH]; intros n;
    cbn [Validation.indexFrom flat_map forallb fst snd].
  - split; reflexivity.
  - split.
    + intros H. apply app_eq_nil in H. destruct H as [He Hr].
      apply andb_true_intro. split.
      * apply (item_valid_iff (Validation.element path n) e). exact He.
      * apply (IH (S n)). exact Hr.
    + intros H. apply andb_prop in H. destruct H as [He Hr].
      apply (item_valid_iff (Validation.element path n) e) in He.
      apply (IH (S n)) in Hr. rewrite He, Hr. reflexivity.
Qed.

(** X14. The published schema accepts an object exactly when, if its spec
    is an object with a services member, that member is an array whose
    every element is an object with a string [name] and a string
    [namespace]. It asks for neither [spec] nor [services], puts no
    condition on a spec that is not an object, on further members or on the
    lengths of the two strings, and rejects a services member that is not an
    array. *)
Theorem schema_accepts_exactly_conforming (members : list (string * Json.json)) :
  Validation.accepts (crd X) (Json.JObj members) = conforms members.
Proof.
  assert (Hv : Validation.violations (crd X) (Json.JObj members) = []
               <-> conforms members = true).
  { unfold Validation.violations, conforms.
    cbn [crd V1beta1.Validation V1beta1.Spec V1beta1.OpenAPIV3Schema].
    rewrite validate_step.
    cbn [Validation.typeMatches String.eqb orb Validation.missing flat_map
         app fst snd].
    destruct (Json.lookup "spec" members) as [sp |];
      [| split; reflexivity].
    cbn [Validation.child String.eqb]. rewrite validate_step.
    cbn [Validation.typeMatches String.eqb orb app].
    destruct sp as [| b | z | str | items | sm]; try (split; reflexivity).
    cbn [Validation.missing flat_map app fst snd].
    destruct (Json.lookup "services" sm) as [sv |];
      [| split; reflexivity].
    cbn [Validation.child String.eqb Ascii.eqb Bool.eqb append].
    rewrite validate_step. rewrite app_nil_r.
    destruct sv as [| b | z | str | items | ms];
      cbn [Validation.typeMatches String.eqb Ascii.eqb Bool.eqb orb
           Json.typeOf app];
      try (split; discriminate).
    rewrite ?app_nil_r. apply items_valid_iff. }
  unfold Validation.accepts.
  destruct (Validation.violations (crd X) (Json.JObj members)) as [| v vs];
    destruct (conforms members); try reflexivity.
  - destruct Hv as [Hv _]. specialize (Hv eq_refl). discriminate.
  - destruct Hv as [_ Hv]. specialize (Hv eq_refl). discriminate.
Qed.

End Acceptance.

(** ** The exit status of [main] *)

Section ExitStatus.

Variable X : Externals.

Lemma main_follows_Run args s w :
  Flag.Parse args (fst defineFlags) (snd defineFlags) = Ok s ->
  versionRequested X = false ->
  snd (main X args w)
  = match snd (Run X s w) with
    | Val (Some _) => Exited 1
    | Val None => Val tt
    | Exited code => Exited code
    | Panicked p => Panicked p
    | Blocked => Blocked
    end.
Proof.
  intros Hp Hv. unfold main. rewrite Hp, Hv.
  cbn [bind ret Monad_Task]. unfold taskBind. cbn [taskRet].
  destruct (Run X s w) as [w' [[e |] | code | p |]]; reflexivity.
Qed.

(** X15. When the flags parse, the exit status of [main] tells what
    happened: 0 when the version was asked for, and then nothing at all has
    been done; otherwise 1 exactly when [Run], on the parsed flags, returned
    an error; 255 exactly when [Run] ended in a fatal log; and [main] stays
    parked exactly when [Run] does. These are the only outcomes: [main]
    never returns normally and never panics. *)
Theorem main_exit_status args s w :
  Flag.Parse args (fst defineFlags) (snd defineFlags) = Ok s ->
  (versionRequested X = true -> main X args w = (w, Exited 0))
  /\ (versionRequested X = false ->
      (snd (main X args w) = Exited 1
       <-> exists err, snd (Run X s w) = Val (Some err))
      /\ (snd (main X args w) = Exited 255
          <-> snd (Run X s w) = Exited 255)
      /\ (snd (main X args w) = Blocked <-> snd (Run X s w) = Blocked)
      /\ (snd (main X args w) = Exited 1
          \/ snd (main X args w) = Exited 255
          \/ snd (main X args w) = Blocked))
  /\ snd (main X args w) <> Val tt
  /\ (forall p, snd (main X args w) <> Panicked p).
Proof.
  intros Hp. destruct (versionRequested X) eqn:Hv.
  - assert (Hm : main X args w = (w, Exited 0%Z)).
    { unfold main. rewrite Hp, Hv. reflexivity. }
    rewrite Hm. cbn [snd].
    split; [reflexivity |]. split; [discriminate |].
    split; [discriminate | intros p; discriminate].
  - rewrite (main_follows_Run args s w Hp Hv).
    split; [discriminate |].
    destruct (Run_outcome X s w) as [(err & Hr & _) | [Hr | Hr]];
      rewrite Hr.
    + split; [| split; [discriminate | intros p; discriminate]].
      intros _. split; [| split; [| split]].
      * split; [intros _; exists err; reflexivity | reflexivity].
      * split; discriminate.
      * split; discriminate.
      * left. reflexivity.
    + split; [| split; [discriminate | intros p; discriminate]].
      intros _. split; [| split; [| split]].
      * split; [discriminate | intros [e He]; discriminate He].
      * split; reflexivity.
      * split; discriminate.
      * right. left. reflexivity.
    + split; [| split; [discriminate | intros p; discriminate]].
      intros _. split; [| split; [| split]].
      * split; [discriminate | intros [e He]; discriminate He].
      * split; discriminate.
      * split; reflexivity.
      * right. right. reflexivity.
Qed.

End ExitStatus.

Lemma main_exit_status_witness :
  snd (main Faults.noConfig [] Sample.fresh) = Exited 1
  <-> exists err,
      snd (Run Faults.noConfig NewOMServer Sample.fresh) = Val (Some err).
Proof.
  destruct (main_exit_status Faults.noConfig [] NewOMServer Sample.fresh
                             eq_refl) as (_ & H & _).
  exact (proj1 (H eq_refl)).
Defined.
